(** * Numerical solution of pipe problems: the notebook's functions

    A shallow embedding of the code cells of [example.ipynb]: the
    Colebrook-White residual, its complete-turbulence seed, the
    friction-factor solve, the heads at the inlet and the outlet, the pipe
    head loss and the energy equation.

    Numbers.  Python floats are idealised as real numbers.  An operation
    that leaves the reals has no value here: a division by zero (Python
    raises [ZeroDivisionError]; numpy yields [inf] with a warning), the
    power [0.5] of a negative number and the logarithm of a negative
    number (numpy yields [nan] with a warning).  Such an evaluation is a
    [Fail], and a [Fail] propagates through every later operation, as an
    exception or a [nan] does.  The natural logarithm of zero is [-inf] in
    numpy, and the seed turns it back into the finite [0.0]: [np_log]
    keeps the infinity.  Where rounding decides a statement, the heads
    are also given in binary64 ([Binary64]).

    Root finder.  [scipy.optimize.root_scalar] is an external library; it
    is an interface here ([RootFinder]), and every statement about a
    function that calls it holds for all its implementations. *)

From Stdlib Require Import PrimFloat.
From Stdlib Require Import Reals Lra.

Open Scope R_scope.

(** ** Python and numpy arithmetic *)

Module Py.

Inductive failure : Set :=
| ZeroDivisionError   (* x / 0, 0 ** negative *)
| InvalidValue        (* numpy's "invalid value encountered" *)
| NotConverged.       (* the root finder gave up *)

Inductive result (A : Type) : Type :=
| Ok (a : A)
| Fail (e : failure).

Arguments Ok {A} a.
Arguments Fail {A} e.

(** [x / y] *)
Definition div (x y : R) : result R :=
  if Req_dec_T y 0 then Fail ZeroDivisionError else Ok (x / y).

(** [x ** 0.5] *)
Definition pow_half (x : R) : result R :=
  if Rlt_dec x 0 then Fail InvalidValue else Ok (sqrt x).

(** [x ** (-2)] *)
Definition pow_neg2 (x : R) : result R :=
  if Req_dec_T x 0 then Fail ZeroDivisionError else Ok (/ (x ^ 2)).

(** A float that may be infinite. *)
Inductive xfloat : Set :=
| Finite (x : R)
| PosInf
| NegInf.

(** [np.log(x)], the natural logarithm: [-inf] at zero, [nan] below *)
Definition np_log (x : R) : result xfloat :=
  if Rlt_dec 0 x then Ok (Finite (ln x))
  else if Req_dec_T x 0 then Ok NegInf
  else Fail InvalidValue.

(** [c * y] for a constant [c]; [0 * inf] is [nan] *)
Definition xmul (c : R) (y : xfloat) : result xfloat :=
  match y with
  | Finite x => Ok (Finite (c * x))
  | PosInf =>
      if Rlt_dec 0 c then Ok PosInf
      else if Rlt_dec c 0 then Ok NegInf else Fail InvalidValue
  | NegInf =>
      if Rlt_dec 0 c then Ok NegInf
      else if Rlt_dec c 0 then Ok PosInf else Fail InvalidValue
  end.

(** [y ** (-2)]; [inf ** (-2)] is [0.0] *)
Definition xpow_neg2 (y : xfloat) : result R :=
  match y with
  | Finite x => pow_neg2 x
  | PosInf | NegInf => Ok 0
  end.

(** [np.log10(x)], the logarithm in base 10 *)
Definition np_log10 (x : R) : result R :=
  if Rlt_dec 0 x then Ok (ln x / ln 10) else Fail InvalidValue.

End Py.

Import Py.

(** ** The notebook's namespace

    The names [re] and [rel_eps] are bound at module level by the example
    cell ([re = 5000], [rel_eps = 0.05]); [rel_eps] is bound again by the
    pipe cell.  The same names are parameters or locals of several
    functions.  A function body is evaluated in the namespace as it is at
    the time of the call, so every function is a computation that may read
    it. *)

Record notebook : Set := {
  nb_re : R;
  nb_rel_eps : R
}.

Definition NB (A : Type) : Type := notebook -> result A.

Definition ret {A} (a : A) : NB A := fun _ => Ok a.

Definition bind {A B} (m : NB A) (k : A -> NB B) : NB B :=
  fun nb => match m nb with
            | Ok a => k a nb
            | Fail e => Fail e
            end.

Definition lift {A} (r : result A) : NB A := fun _ => r.

Definition global {A} (name : notebook -> A) : NB A := fun nb => Ok (name nb).

Declare Scope nb_scope.
Delimit Scope nb_scope with nb.
Notation "x <- m ;; k" := (bind m (fun x => k))
  (at level 61, m at next level, right associativity) : nb_scope.
Open Scope nb_scope.

(** ** [scipy.optimize.root_scalar(g, x0=...)]

    Given the residual and the initial guess, the root or a failure. *)

Class RootFinder : Type :=
  root_scalar : (R -> result R) -> R -> result R.

(** The call as the notebook makes it: the residual is a function of the
    notebook, run in the current namespace. *)
Definition call_root_scalar {solver : RootFinder} (g : R -> NB R) (x0 : R) : NB R :=
  fun nb => root_scalar (fun x => g x nb) x0.

(** A root finder answers [r] only if the residual vanishes at [r]. *)
Definition sound (solver : RootFinder) : Prop :=
  forall g x0 r, @root_scalar solver g x0 = Ok r -> g r = Ok 0.

(** ** Constants *)

Definition G : R := 9.81.

(* Water properties *)
Definition RHO : R := 1000.
Definition MU : R := 1e-3.

(** ** Solving for the friction factor *)

(** [1/f**0.5 + 2*np.log10(rel_eps/3.7 + 2.51/(re*f**0.5))] *)
Definition colebrook_white (f re rel_eps : R) : NB R :=
  s <- lift (pow_half f) ;;
  a <- lift (div 1 s) ;;
  s' <- lift (pow_half f) ;;
  b <- lift (div 2.51 (re * s')) ;;
  l <- lift (np_log10 (rel_eps / 3.7 + b)) ;;
  ret (a + 2 * l).

(** [(-2*np.log(rel_eps/3.7))**(-2)] *)
Definition colebrook_white_complete_turbulence (rel_eps : R) : NB R :=
  l <- lift (np_log (rel_eps / 3.7)) ;;
  m <- lift (xmul (-2) l) ;;
  lift (xpow_neg2 m).

Section Solve.

Context {solver : RootFinder}.

Definition friction_factor (re rel_eps : R) : NB R :=
  f_complete <- colebrook_white_complete_turbulence rel_eps ;;
  f <- call_root_scalar (fun f => colebrook_white f re rel_eps) f_complete ;;
  ret f.

End Solve.

(** The example cell and the pipe cell, as updates of the namespace. *)
Definition example_cell : notebook :=
  {| nb_re := 5000; nb_rel_eps := 0.05 |}.

(** ** Solving a pipe problem *)

(* inlet: 50 Pa, 1cm^2, 0 m elevation *)
Definition p_1 : R := 50.
Definition area_1 : R := 1e-2 ^ 2.
Definition z_1 : R := 0.

Definition head_1 (Q : R) : NB R :=
  let v := (Q / area_1) ^ 2 in
  ret (p_1 / (RHO * G) + v ^ 2 / (2 * G) + z_1).

(* outlet: 0 Pa, 1cm^2, 0 m elevation *)
Definition p_2 : R := 0.
Definition area_2 : R := 1e-2 ^ 2.
Definition z_2 : R := 0.

Definition head_2 (Q : R) : NB R :=
  let v := (Q / area_2) ^ 2 in
  ret (p_2 / (RHO * G) + v ^ 2 / (2 * G) + z_2).

(* Pipe head loss *)
Definition eps : R := 1e-3.
Definition d_pipe : R := 10e-2.
Definition length : R := 1.
Definition area_pipe : R := PI * (d_pipe / 2) ^ 2.

(** [rel_eps = 1e-3/d_pipe] at module level *)
Definition pipe_cell (nb : notebook) : notebook :=
  {| nb_re := nb_re nb; nb_rel_eps := 1e-3 / d_pipe |}.

Section Energy.

Context {solver : RootFinder}.

(** [rel_eps] is not a local of [head_f]: it is read from the
    namespace. *)
Definition head_f (Q : R) : NB R :=
  let v := (Q / area_pipe) ^ 2 in
  let re := RHO * v * d_pipe / MU in
  rel_eps <- global nb_rel_eps ;;
  f <- friction_factor re rel_eps ;;
  ret (length / d_pipe * v ^ 2 / (2 * G) * f).

Definition energy_equation (Q : R) : NB R :=
  h1 <- head_1 Q ;;
  h2 <- head_2 Q ;;
  hf <- head_f Q ;;
  ret (h1 - h2 - hf).

(** [root_scalar(energy_equation, x0=1)] *)
Definition flow_rate : NB R :=
  call_root_scalar energy_equation 1.

End Energy.

(** The namespace once every cell has run, in order. *)
Definition pipe_notebook : notebook := pipe_cell example_cell.

(** ** Reference definitions *)

(** The closed form with the logarithm in base 10, as the specification
    words it: [(-2*log10(rel_eps/3.7))^-2].  It is compared below with
    [colebrook_white_complete_turbulence], which is the code. *)
Definition colebrook_white_turbulent_limit (rel_eps : R) : NB R :=
  l <- lift (np_log10 (rel_eps / 3.7)) ;;
  lift (pow_neg2 (-2 * l)).

(** A root finder that tries a single candidate [r]: it answers [r] when
    the residual vanishes there, gives up when it does not, and lets a
    failure of the residual through. *)
Definition try_root (r : R) : RootFinder :=
  fun g _ =>
    match g r with
    | Ok y => if Req_dec_T y 0 then Ok r else Fail NotConverged
    | Fail e => Fail e
    end.

(** The argument of the logarithm in [colebrook_white] and the value of
    the residual, as real expressions: what the code computes where every
    operation has a value. *)
Definition log_argument (f re rel_eps : R) : R :=
  rel_eps / 3.7 + 2.51 / (re * sqrt f).

Definition residual_value (f re rel_eps : R) : R :=
  1 / sqrt f + 2 * (ln (log_argument f re rel_eps) / ln 10).

(** [1/sqrt f] at a root of the energy equation: there the product
    [Re * sqrt f] is [10000], whatever the flow rate. *)
Definition inverse_sqrt_friction (rel_eps : R) : R :=
  -2 * (ln (rel_eps / 3.7 + 2.51 / 10000) / ln 10).

(** The flow rate at which the head loss balances the pressure heads. *)
Definition balanced_flow_rate (rel_eps : R) : R :=
  area_pipe * sqrt (inverse_sqrt_friction rel_eps / 10).

(** A root finder with two candidates: [r] when the initial guess is
    [guess], [r'] for any other initial guess. *)
Definition try_root_by_guess (guess r r' : R) : RootFinder :=
  fun g x0 =>
    if Req_dec_T x0 guess then @root_scalar (try_root r) g x0
    else @root_scalar (try_root r') g x0.

(** ** Root finders with several possible answers

    A library with hidden state, a clock or a random source may answer
    the same call in several ways.  [answers g x0 out] says that [out] is
    a possible answer of [root_scalar(g, x0=x0)]. *)
Definition RootFinderOutcomes : Type :=
  (R -> result R) -> R -> result R -> Prop.



(** A root finder that answers [r] or [r'] to every call. *)
Definition either_answer (r r' : R) : RootFinderOutcomes :=
  fun _ _ out => out = Ok r \/ out = Ok r'.

(** The possible results of [friction_factor(re, rel_eps)] called in the
    namespace [nb]: the failure of the seed, or an answer of the root
    finder to the call with the residual and the seed. *)
Inductive friction_factor_outcome (answers : RootFinderOutcomes)
  (re rel_eps : R) (nb : notebook) : result R -> Prop :=
| seed_fails (e : failure) :
    colebrook_white_complete_turbulence rel_eps nb = Fail e ->
    friction_factor_outcome answers re rel_eps nb (Fail e)
| solve_answers (f_complete : R) (out : result R) :
    colebrook_white_complete_turbulence rel_eps nb = Ok f_complete ->
    answers (fun f => colebrook_white f re rel_eps nb) f_complete out ->
    friction_factor_outcome answers re rel_eps nb out.

(** ** The heads in binary64

    [head_1] and [head_2] on the floats of the machine, for the
    statements that rounding decides.  Every operation is rounded to the
    nearest float; [x ** 2] is the rounded square. *)

Module Binary64.

#[local] Set Warnings "-inexact-float".
Local Open Scope float_scope.

Definition sq (x : float) : float := x * x.

Definition G : float := 9.81.
Definition RHO : float := 1000.

Definition p_1 : float := 50.
Definition area_1 : float := sq 1e-2.
Definition z_1 : float := 0.

Definition head_1 (Q : float) : float :=
  let v := sq (Q / area_1) in
  p_1 / (RHO * G) + sq v / (2 * G) + z_1.

Definition p_2 : float := 0.
Definition area_2 : float := sq 1e-2.
Definition z_2 : float := 0.

Definition head_2 (Q : float) : float :=
  let v := sq (Q / area_2) in
  p_2 / (RHO * G) + sq v / (2 * G) + z_2.

End Binary64.

(** * Properties *)

(** ** The arithmetic primitives *)

Lemma div_ok (x y : R) : y <> 0 -> div x y = Ok (x / y).
Proof.
  intros Hy. unfold div. destruct (Req_dec_T y 0) as [E | _]; [contradiction | reflexivity].
Qed.

Lemma div_zero (x : R) : div x 0 = Fail ZeroDivisionError.
Proof.
  unfold div. destruct (Req_dec_T 0 0) as [_ | N]; [reflexivity | now elim N].
Qed.

Lemma pow_half_ok (x : R) : 0 <= x -> pow_half x = Ok (sqrt x).
Proof.
  intros Hx. unfold pow_half. destruct (Rlt_dec x 0) as [L | _]; [lra | reflexivity].
Qed.

Lemma pow_half_neg (x : R) : x < 0 -> pow_half x = Fail InvalidValue.
Proof.
  intros Hx. unfold pow_half. destruct (Rlt_dec x 0) as [_ | N]; [reflexivity | contradiction].
Qed.

Lemma pow_neg2_ok (x : R) : x <> 0 -> pow_neg2 x = Ok (/ (x ^ 2)).
Proof.
  intros Hx. unfold pow_neg2. destruct (Req_dec_T x 0) as [E | _]; [contradiction | reflexivity].
Qed.

Lemma np_log_ok (x : R) : 0 < x -> np_log x = Ok (Finite (ln x)).
Proof.
  intros Hx. unfold np_log. destruct (Rlt_dec 0 x) as [_ | N]; [reflexivity | contradiction].
Qed.

Lemma np_log_neg (x : R) : x < 0 -> np_log x = Fail InvalidValue.
Proof.
  intros Hx. unfold np_log. destruct (Rlt_dec 0 x) as [L | _]; [lra |].
  destruct (Req_dec_T x 0) as [E | _]; [lra | reflexivity].
Qed.

Lemma np_log_zero : np_log 0 = Ok NegInf.
Proof.
  unfold np_log. destruct (Rlt_dec 0 0) as [L | _]; [lra |].
  destruct (Req_dec_T 0 0) as [_ | N]; [reflexivity | now elim N].
Qed.

Lemma np_log10_ok (x : R) : 0 < x -> np_log10 x = Ok (ln x / ln 10).
Proof.
  intros Hx. unfold np_log10. destruct (Rlt_dec 0 x) as [_ | N]; [reflexivity | contradiction].
Qed.

(** ** Logarithms of the powers of ten *)

Lemma ln_10_gt_2 : 2 < ln 10.
Proof.
  rewrite <- (ln_exp 2). apply ln_increasing; [apply exp_pos |].
  replace 2 with (1 + 1) by lra. rewrite exp_plus.
  pose proof exp_le_3 as H3. pose proof (exp_pos 1) as H0. nra.
Qed.

Lemma ln_tenth : ln (1 / 10) = - ln 10.
Proof.
  replace (1 / 10) with (/ 10) by lra. apply ln_Rinv. lra.
Qed.

Lemma ln_hundredth : ln (1 / 100) = - (2 * ln 10).
Proof.
  replace (1 / 100) with (/ (10 * 10)) by lra.
  rewrite ln_Rinv by lra. rewrite ln_mult by lra. lra.
Qed.

(** ** The constants *)

Lemma area_1_val : area_1 = 1 / 10000.
Proof. unfold area_1. lra. Qed.

Lemma area_2_val : area_2 = 1 / 10000.
Proof. unfold area_2. lra. Qed.

Lemma area_pipe_val : area_pipe = PI / 400.
Proof. unfold area_pipe, d_pipe. lra. Qed.

Lemma area_pipe_pos : 0 < area_pipe.
Proof. rewrite area_pipe_val. pose proof PI_RGT_0. lra. Qed.

(** A flow rate enters every head through the square of [Q / area]. *)
Lemma sq_quot_opp (Q a : R) : (- Q / a) ^ 2 = (Q / a) ^ 2.
Proof. unfold Rdiv. ring. Qed.

(** ** The heads *)

Lemma head_1_eq (Q : R) (nb : notebook) :
  head_1 Q nb = Ok (p_1 / (RHO * G) + (Q / area_1) ^ 4 / (2 * G) + z_1).
Proof.
  unfold head_1, ret. f_equal. f_equal. f_equal. f_equal. ring.
Qed.

Lemma head_2_eq (Q : R) (nb : notebook) :
  head_2 Q nb = Ok (p_2 / (RHO * G) + (Q / area_2) ^ 4 / (2 * G) + z_2).
Proof.
  unfold head_2, ret. f_equal. f_equal. f_equal. f_equal. ring.
Qed.

(** C1: the head at a point is [p/(rho*g) + (Q/A)^2/(2*g) + z].  The code
    squares [Q/A] twice.  At [Q = 2e-4], where [Q/A = 2], [head_1] and
    [head_2] return the velocity head [16/(2*G)], not [4/(2*G)]. *)
Theorem head_velocity_term_is_fourth_power (nb : notebook) :
  head_1 2e-4 nb = Ok (p_1 / (RHO * G) + 16 / (2 * G) + z_1) /\
  head_2 2e-4 nb = Ok (p_2 / (RHO * G) + 16 / (2 * G) + z_2) /\
  head_1 2e-4 nb <> Ok (p_1 / (RHO * G) + (2e-4 / area_1) ^ 2 / (2 * G) + z_1) /\
  head_2 2e-4 nb <> Ok (p_2 / (RHO * G) + (2e-4 / area_2) ^ 2 / (2 * G) + z_2).
Proof.
  assert (Q1 : 2e-4 / area_1 = 2) by (rewrite area_1_val; lra).
  assert (Q2 : 2e-4 / area_2 = 2) by (rewrite area_2_val; lra).
  rewrite head_1_eq, head_2_eq, Q1, Q2.
  repeat split.
  - f_equal. lra.
  - f_equal. lra.
  - intros H. injection H as H. unfold G in H. lra.
  - intros H. injection H as H. unfold G in H. lra.
Qed.


(** ** The head loss and the energy equation *)

Section EnergyFacts.

Context {solver : RootFinder}.

(** What [head_f] computes, with its locals written out. *)
Lemma head_f_eq (Q : R) (nb : notebook) :
  head_f Q nb =
  (f <- friction_factor (RHO * (Q / area_pipe) ^ 2 * d_pipe / MU) (nb_rel_eps nb) ;;
   ret (length / d_pipe * ((Q / area_pipe) ^ 2) ^ 2 / (2 * G) * f)) nb.
Proof. reflexivity. Qed.

Lemma head_1_opp (Q : R) : head_1 (- Q) = head_1 Q.
Proof. unfold head_1. rewrite sq_quot_opp. reflexivity. Qed.

Lemma head_2_opp (Q : R) : head_2 (- Q) = head_2 Q.
Proof. unfold head_2. rewrite sq_quot_opp. reflexivity. Qed.

Lemma head_f_opp (Q : R) : head_f (- Q) = head_f Q.
Proof. unfold head_f. rewrite sq_quot_opp. reflexivity. Qed.

(** C7: the energy residual at [Q] is the head at the inlet, minus the
    head at the outlet, minus the head loss of the pipe, all at [Q]; it
    has no value when the head loss has none. *)
Theorem energy_equation_is_head_balance (Q : R) (nb : notebook) :
  exists h1 h2 : R,
    head_1 Q nb = Ok h1 /\
    head_2 Q nb = Ok h2 /\
    energy_equation Q nb =
      match head_f Q nb with
      | Ok hf => Ok (h1 - h2 - hf)
      | Fail e => Fail e
      end.
Proof.
  eexists. eexists. split; [apply head_1_eq |]. split; [apply head_2_eq |].
  unfold energy_equation, bind. rewrite head_1_eq, head_2_eq.
  destruct (head_f Q nb); reflexivity.
Qed.

(** C9: the energy residual is an even function of the flow rate. *)
Theorem energy_equation_even (Q : R) (nb : notebook) :
  energy_equation (- Q) nb = energy_equation Q nb.
Proof.
  unfold energy_equation. now rewrite head_1_opp, head_2_opp, head_f_opp.
Qed.

(** The friction-factor solve reads nothing but its two arguments:
    called in any two states of the notebook's namespace with the same
    Reynolds number and relative roughness, it gives the same result. *)
Lemma friction_factor_deterministic (re rel_eps : R) (nb nb' : notebook) :
  friction_factor re rel_eps nb = friction_factor re rel_eps nb'.
Proof. reflexivity. Qed.

End EnergyFacts.

(** ** The Colebrook-White residual and its seed *)

(** The residual inside its domain. *)
Lemma colebrook_white_ok (f re rel_eps : R) (nb : notebook) :
  0 < f -> re <> 0 -> 0 < rel_eps / 3.7 + 2.51 / (re * sqrt f) ->
  colebrook_white f re rel_eps nb
  = Ok (1 / sqrt f + 2 * (ln (rel_eps / 3.7 + 2.51 / (re * sqrt f)) / ln 10)).
Proof.
  intros Hf Hre Harg.
  assert (Hs : 0 < sqrt f) by now apply sqrt_lt_R0.
  unfold colebrook_white, bind, lift, ret.
  rewrite pow_half_ok by lra.
  rewrite div_ok by lra.
  rewrite div_ok by (apply Rmult_integral_contrapositive_currified; lra).
  rewrite np_log10_ok by assumption.
  reflexivity.
Qed.

(** The seed inside its domain: the logarithm is the natural one. *)
Lemma complete_turbulence_ok (rel_eps : R) (nb : notebook) :
  0 < rel_eps -> rel_eps <> 3.7 ->
  colebrook_white_complete_turbulence rel_eps nb
  = Ok (/ ((-2 * ln (rel_eps / 3.7)) ^ 2)).
Proof.
  intros Hpos Hne.
  unfold colebrook_white_complete_turbulence, bind, lift.
  rewrite np_log_ok by lra. unfold xmul, xpow_neg2.
  apply pow_neg2_ok.
  assert (Hl : ln (rel_eps / 3.7) <> 0).
  { intros E. rewrite <- ln_1 in E. apply ln_inv in E; lra. }
  lra.
Qed.

(** Below zero the logarithm is not a number, and neither is the seed. *)
Lemma complete_turbulence_negative (rel_eps : R) (nb : notebook) :
  rel_eps < 0 ->
  colebrook_white_complete_turbulence rel_eps nb = Fail InvalidValue.
Proof.
  intros Hneg. unfold colebrook_white_complete_turbulence, bind, lift.
  now rewrite np_log_neg by lra.
Qed.

(** At zero the logarithm is [-inf] and the seed is [0.0]. *)
Lemma complete_turbulence_zero (nb : notebook) :
  colebrook_white_complete_turbulence 0 nb = Ok 0.
Proof.
  unfold colebrook_white_complete_turbulence, bind, lift.
  replace (0 / 3.7) with 0 by lra. rewrite np_log_zero. unfold xmul.
  destruct (Rlt_dec 0 (-2)) as [L | _]; [lra |].
  destruct (Rlt_dec (-2) 0) as [_ | N]; [reflexivity | lra].
Qed.

(** C3: the seed is [(-2*log10(rel_eps/3.7))^-2].  The code takes the
    natural logarithm: at [rel_eps = 0.37], where [rel_eps/3.7 = 1/10], it
    returns [1/(2*ln 10)^2], which is below [1/16], and the formula in
    base 10 gives [1/4]. *)
Theorem complete_turbulence_uses_natural_log (nb : notebook) :
  colebrook_white_complete_turbulence 0.37 nb = Ok (/ ((2 * ln 10) ^ 2)) /\
  colebrook_white_turbulent_limit 0.37 nb = Ok (1 / 4) /\
  / ((2 * ln 10) ^ 2) < 1 / 16.
Proof.
  pose proof ln_10_gt_2 as HL.
  assert (E : 0.37 / 3.7 = 1 / 10) by lra.
  repeat split.
  - rewrite complete_turbulence_ok by lra. rewrite E, ln_tenth.
    f_equal. f_equal. ring.
  - unfold colebrook_white_turbulent_limit, bind, lift.
    rewrite np_log10_ok by lra. rewrite E, ln_tenth.
    replace (-2 * (- ln 10 / ln 10)) with 2 by (field; lra).
    rewrite pow_neg2_ok by lra. f_equal. lra.
  - replace (1 / 16) with (/ 16) by lra.
    apply Rinv_lt_contravar; nra.
Qed.

(** C2: the seed, put for [f] in the residual at [Re = 1e12], leaves a
    residual within [1e-6] of zero.  In the code the seed is taken with
    the natural logarithm and the residual with the logarithm in base 10:
    at [rel_eps = 0.037], where [rel_eps/3.7 = 1/100], the residual is
    above [4]. *)
Theorem seed_residual_far_from_zero (nb : notebook) :
  exists f r : R,
    colebrook_white_complete_turbulence 0.037 nb = Ok f /\
    colebrook_white f 1e12 0.037 nb = Ok r /\
    4 < r.
Proof.
  pose proof ln_10_gt_2 as HL.
  assert (E : 0.037 / 3.7 = 1 / 100) by lra.
  set (f := / ((4 * ln 10) ^ 2)).
  assert (Hf : 0 < f) by (apply Rinv_0_lt_compat; nra).
  assert (Hs : sqrt f = / (4 * ln 10)).
  { unfold f. rewrite sqrt_inv, sqrt_pow2 by lra. reflexivity. }
  assert (Hb : 0 < 2.51 / (1e12 * sqrt f)).
  { rewrite Hs. apply Rdiv_lt_0_compat; [lra |].
    apply Rmult_lt_0_compat; [lra | apply Rinv_0_lt_compat; lra]. }
  exists f. eexists. split; [| split].
  - rewrite complete_turbulence_ok by lra. rewrite E, ln_hundredth.
    unfold f. f_equal. f_equal. ring.
  - apply colebrook_white_ok; lra.
  - rewrite E, Hs.
    assert (Hln : ln (1 / 100) < ln (1 / 100 + 2.51 / (1e12 * / (4 * ln 10)))).
    { apply ln_increasing; [lra |]. rewrite Hs in Hb. lra. }
    rewrite ln_hundredth in Hln.
    set (x := ln (1 / 100 + 2.51 / (1e12 * / (4 * ln 10)))) in *.
    assert (Hq : -2 < x / ln 10).
    { apply Rmult_lt_reg_r with (ln 10); [lra |].
      unfold Rdiv. rewrite Rmult_assoc, Rinv_l by lra. lra. }
    replace (1 / / (4 * ln 10)) with (4 * ln 10) by (field; lra).
    lra.
Qed.

Lemma sqrt_quarter : sqrt (1 / 4) = 1 / 2.
Proof.
  replace (1 / 4) with ((1 / 2) ^ 2) by lra. apply sqrt_pow2. lra.
Qed.

(** Outside its domain the residual has no value. *)
Lemma colebrook_white_negative (f re rel_eps : R) (nb : notebook) :
  f < 0 -> colebrook_white f re rel_eps nb = Fail InvalidValue.
Proof.
  intros Hf. unfold colebrook_white, bind, lift.
  now rewrite pow_half_neg.
Qed.

Lemma colebrook_white_zero (re rel_eps : R) (nb : notebook) :
  colebrook_white 0 re rel_eps nb = Fail ZeroDivisionError.
Proof.
  unfold colebrook_white, bind, lift.
  rewrite pow_half_ok by lra. rewrite sqrt_0. now rewrite div_zero.
Qed.

(** At a Reynolds number of zero the residual has no value anywhere. *)
Lemma colebrook_white_reynolds_zero (f rel_eps : R) (nb : notebook) :
  0 <= f -> colebrook_white f 0 rel_eps nb = Fail ZeroDivisionError.
Proof.
  intros Hf. unfold colebrook_white, bind, lift.
  rewrite pow_half_ok by assumption.
  unfold div at 1. destruct (Req_dec_T (sqrt f) 0); [reflexivity |].
  now rewrite Rmult_0_l, div_zero.
Qed.

(** [f = 1/4] is an exact root of the residual at [Re = -502] and
    [rel_eps = 0.407]: [1/sqrt f = 2] and the logarithm's argument is
    [0.11 - 0.01 = 1/10]. *)
Lemma colebrook_white_root_negative_reynolds (nb : notebook) :
  colebrook_white (1 / 4) (-502) 0.407 nb = Ok 0.
Proof.
  assert (A : 0.407 / 3.7 + 2.51 / (-502 * (1 / 2)) = 1 / 10) by lra.
  rewrite colebrook_white_ok; rewrite ?sqrt_quarter, ?A; try lra.
  rewrite ln_tenth. f_equal. pose proof ln_10_gt_2. field. lra.
Qed.

Lemma try_root_sound (r : R) : sound (try_root r).
Proof.
  intros g x0 r'. unfold root_scalar, try_root.
  destruct (g r) as [y | e] eqn:Hg; [| discriminate].
  destruct (Req_dec_T y 0) as [-> | _]; [| discriminate].
  intros H. injection H as <-. exact Hg.
Qed.

Section SolveFacts.

Context {solver : RootFinder}.

(** The result of the solve is the root finder's answer. *)
Lemma friction_factor_root (re rel_eps f : R) (nb : notebook) :
  sound solver ->
  friction_factor re rel_eps nb = Ok f ->
  colebrook_white f re rel_eps nb = Ok 0.
Proof.
  intros Hsound. unfold friction_factor, bind, call_root_scalar, ret.
  destruct (colebrook_white_complete_turbulence rel_eps nb) as [f0 | e];
    [| discriminate].
  destruct (root_scalar _ f0) as [r | e] eqn:Hr; [| discriminate].
  intros H. injection H as <-. exact (Hsound _ _ _ Hr).
Qed.

(** C4: the head loss takes [v = Q/area_pipe], [Re = rho*v*d/mu] and
    returns [(length/d) * v^2/(2*g) * f].  The code takes the square of
    [Q/area_pipe] for [v]: at [Q = PI/200], where [Q/area_pipe = 2] and
    [rho*2*d/mu = 200000], the solve is run at [Re = 400000] and the
    factor of [f] is [10 * 16/(2*G)], not [10 * 4/(2*G)]. *)
Theorem head_f_squares_velocity_twice (nb : notebook) :
  PI / 200 / area_pipe = 2 /\
  RHO * 2 * d_pipe / MU = 200000 /\
  head_f (PI / 200) nb =
    match friction_factor 400000 (nb_rel_eps nb) nb with
    | Ok f => Ok (10 * 16 / (2 * G) * f)
    | Fail e => Fail e
    end.
Proof.
  assert (Hv : PI / 200 / area_pipe = 2).
  { rewrite area_pipe_val. pose proof PI_RGT_0. field. lra. }
  split; [exact Hv |]. split; [unfold RHO, d_pipe, MU; lra |].
  rewrite head_f_eq, Hv. unfold bind, ret.
  replace (RHO * 2 ^ 2 * d_pipe / MU) with 400000
    by (unfold RHO, d_pipe, MU; lra).
  destruct (friction_factor 400000 (nb_rel_eps nb) nb) as [f | e];
    [| reflexivity].
  f_equal. unfold length, d_pipe. lra.
Qed.

(** C5, as the code has it: the solve checks neither argument and raises
    nothing of its own.  With a negative relative roughness the seed's
    logarithm is not a number and neither is the result of the call.  At
    a relative roughness of zero the seed is [0.0] and the call is the
    root finder's answer from there.  With a positive relative roughness
    other than [3.7] the call is the root finder's answer for the residual
    from the seed [(-2*ln(rel_eps/3.7))^(-2)].  The sign of the Reynolds
    number plays no part in any of the three. *)
Theorem friction_factor_unvalidated (re rel_eps : R) (nb : notebook) :
  (rel_eps < 0 -> friction_factor re rel_eps nb = Fail InvalidValue) /\
  (rel_eps = 0 ->
   friction_factor re rel_eps nb
   = match root_scalar (fun f => colebrook_white f re rel_eps nb) 0 with
     | Ok f => Ok f
     | Fail e => Fail e
     end) /\
  (0 < rel_eps -> rel_eps <> 3.7 ->
   friction_factor re rel_eps nb
   = match root_scalar (fun f => colebrook_white f re rel_eps nb)
                       (/ ((-2 * ln (rel_eps / 3.7)) ^ 2)) with
     | Ok f => Ok f
     | Fail e => Fail e
     end).
Proof.
  split; [| split].
  - intros Hneg. unfold friction_factor, bind.
    now rewrite complete_turbulence_negative.
  - intros ->. unfold friction_factor, bind, call_root_scalar, ret.
    rewrite complete_turbulence_zero. reflexivity.
  - intros Hpos Hne. unfold friction_factor, bind, call_root_scalar, ret.
    rewrite complete_turbulence_ok by assumption. reflexivity.
Qed.

(** C6, as the code has it: no residual replaces a failure by a penalty
    value.  The Colebrook-White residual fails with an invalid value at
    a negative trial [f] and with a division by zero at [f = 0]; the
    energy residual passes on the failure of the head loss. *)
Theorem residual_failure_not_replaced (f re rel_eps Q : R) (nb : notebook) :
  (f < 0 -> colebrook_white f re rel_eps nb = Fail InvalidValue) /\
  (f = 0 -> colebrook_white f re rel_eps nb = Fail ZeroDivisionError) /\
  (forall e, head_f Q nb = Fail e -> energy_equation Q nb = Fail e).
Proof.
  split; [| split].
  - apply colebrook_white_negative.
  - intros ->. apply colebrook_white_zero.
  - intros e He. unfold energy_equation, bind.
    rewrite head_1_eq, head_2_eq, He. reflexivity.
Qed.

End SolveFacts.

(** ** Concrete runs *)

(** The relative roughness the pipe cell leaves in the namespace. *)
Lemma pipe_notebook_rel_eps : nb_rel_eps pipe_notebook = 1 / 100.
Proof. simpl. unfold d_pipe. lra. Qed.

(** At [Re = -502] and [rel_eps = 0.407] the residual vanishes at
    [f = 1/4], and the solve with the root finder that tries [1/4] returns
    it: a numerical result for a non-positive Reynolds number. *)
Lemma friction_factor_returns_at_negative_reynolds :
  -502 <= 0 /\
  colebrook_white (1 / 4) (-502) 0.407 pipe_notebook = Ok 0 /\
  @friction_factor (try_root (1 / 4)) (-502) 0.407 pipe_notebook = Ok (1 / 4).
Proof.
  split; [lra |]. split; [apply colebrook_white_root_negative_reynolds |].
  unfold friction_factor, bind, call_root_scalar, ret.
  rewrite complete_turbulence_ok by lra.
  unfold root_scalar, try_root.
  rewrite colebrook_white_root_negative_reynolds.
  destruct (Req_dec_T 0 0) as [_ | N]; [reflexivity | now elim N].
Qed.

Lemma friction_factor_unvalidated_witness :
  (-1 < 0 /\
   @friction_factor (try_root (1 / 4)) (-502) (-1) pipe_notebook
   = Fail InvalidValue) /\
  (@friction_factor (try_root (1 / 4)) (-502) 0 pipe_notebook
   = match @root_scalar (try_root (1 / 4))
             (fun f => colebrook_white f (-502) 0 pipe_notebook) 0 with
     | Ok f => Ok f
     | Fail e => Fail e
     end) /\
  (0 < 0.407 /\ 0.407 <> 3.7 /\
   @friction_factor (try_root (1 / 4)) (-502) 0.407 pipe_notebook
   = match @root_scalar (try_root (1 / 4))
             (fun f => colebrook_white f (-502) 0.407 pipe_notebook)
             (/ ((-2 * ln (0.407 / 3.7)) ^ 2)) with
     | Ok f => Ok f
     | Fail e => Fail e
     end).
Proof.
  split; [| split].
  - split; [lra |].
    apply (@friction_factor_unvalidated (try_root (1 / 4)) (-502) (-1) pipe_notebook).
    lra.
  - apply (proj1 (proj2 (@friction_factor_unvalidated
                            (try_root (1 / 4)) (-502) 0 pipe_notebook))).
    reflexivity.
  - split; [lra |]. split; [lra |].
    apply (@friction_factor_unvalidated (try_root (1 / 4)) (-502) 0.407 pipe_notebook);
      lra.
Defined.

(** At the trial value [f = 0] the residual is a division by zero, not a
    penalty value, although the residual at [Re = 5000] and
    [rel_eps = 0.05] has a value at every [f > 0] with a positive
    logarithm argument. *)
Lemma colebrook_white_no_penalty :
  colebrook_white 0 5000 0.05 pipe_notebook = Fail ZeroDivisionError /\
  ~ (exists penalty : R, colebrook_white 0 5000 0.05 pipe_notebook = Ok penalty).
Proof.
  split; [apply colebrook_white_zero |].
  intros [penalty H]. rewrite colebrook_white_zero in H. discriminate.
Qed.

(** The head loss at [Q = 0] with the root finder that tries [1/4]: the
    Reynolds number is zero and the residual divides by it. *)
Lemma head_f_at_rest :
  @head_f (try_root (1 / 4)) 0 pipe_notebook = Fail ZeroDivisionError.
Proof.
  rewrite head_f_eq, pipe_notebook_rel_eps.
  replace (RHO * (0 / area_pipe) ^ 2 * d_pipe / MU) with 0
    by (unfold Rdiv; ring).
  unfold bind, friction_factor, call_root_scalar, bind.
  rewrite complete_turbulence_ok by lra.
  unfold root_scalar, try_root.
  rewrite colebrook_white_reynolds_zero by lra. reflexivity.
Qed.

Lemma residual_failure_not_replaced_witness :
  (-1 < 0 /\ colebrook_white (-1) 5000 0.05 pipe_notebook = Fail InvalidValue) /\
  colebrook_white 0 5000 0.05 pipe_notebook = Fail ZeroDivisionError /\
  (@head_f (try_root (1 / 4)) 0 pipe_notebook = Fail ZeroDivisionError /\
   @energy_equation (try_root (1 / 4)) 0 pipe_notebook = Fail ZeroDivisionError).
Proof.
  split; [| split].
  - split; [lra |].
    apply (@residual_failure_not_replaced (try_root (1 / 4)) (-1) 5000 0.05 0 pipe_notebook).
    lra.
  - apply (@residual_failure_not_replaced (try_root (1 / 4)) 0 5000 0.05 0 pipe_notebook).
    reflexivity.
  - split; [exact head_f_at_rest |].
    apply (@residual_failure_not_replaced (try_root (1 / 4)) 0 5000 0.05 0 pipe_notebook).
    exact head_f_at_rest.
Defined.

(** The namespace matters to [head_f], which reads [rel_eps] from it: at
    rest, with the root finder that tries [1/4], the failure is the
    seed's invalid value when the namespace holds a negative [rel_eps],
    and the residual's division by zero after the pipe cell. *)
Remark head_f_reads_namespace :
  @head_f (try_root (1 / 4)) 0 {| nb_re := 5000; nb_rel_eps := -1 |}
  <> @head_f (try_root (1 / 4)) 0 pipe_notebook.
Proof.
  rewrite head_f_at_rest, head_f_eq. simpl nb_rel_eps.
  unfold bind, friction_factor, bind.
  rewrite complete_turbulence_negative by lra. discriminate.
Qed.

(** * Further properties of the notebook's functions *)

(** ** The residual as a function of the trial friction factor *)

Lemma colebrook_white_value (f re rel_eps : R) (nb : notebook) :
  0 < f -> re <> 0 -> 0 < log_argument f re rel_eps ->
  colebrook_white f re rel_eps nb = Ok (residual_value f re rel_eps).
Proof. apply colebrook_white_ok. Qed.

Lemma colebrook_white_inv (f re rel_eps y : R) (nb : notebook) :
  colebrook_white f re rel_eps nb = Ok y ->
  0 < f /\ re <> 0 /\ 0 < log_argument f re rel_eps /\
  y = residual_value f re rel_eps.
Proof.
  unfold colebrook_white, bind, lift, ret, pow_half.
  destruct (Rlt_dec f 0) as [| Hf]; [discriminate |].
  unfold div at 1. destruct (Req_dec_T (sqrt f) 0) as [| Hs]; [discriminate |].
  unfold div. destruct (Req_dec_T (re * sqrt f) 0) as [| Hp]; [discriminate |].
  unfold np_log10.
  destruct (Rlt_dec 0 (rel_eps / 3.7 + 2.51 / (re * sqrt f))) as [Ha |];
    [| discriminate].
  intros H. injection H as <-.
  assert (Hf0 : f <> 0) by (intros ->; apply Hs, sqrt_0).
  assert (Hre : re <> 0) by (intros ->; apply Hp; ring).
  repeat split; try assumption. lra.
Qed.

(** X1: the residual has a value exactly on its domain: a positive trial
    friction factor, a Reynolds number other than zero and a positive
    argument of the logarithm. *)
Theorem colebrook_white_domain (f re rel_eps : R) (nb : notebook) :
  (exists y, colebrook_white f re rel_eps nb = Ok y) <->
  0 < f /\ re <> 0 /\ 0 < rel_eps / 3.7 + 2.51 / (re * sqrt f).
Proof.
  split.
  - intros [y H]. apply colebrook_white_inv in H. tauto.
  - intros (Hf & Hre & Ha). eexists. now apply colebrook_white_ok.
Qed.

Lemma log_argument_decreasing (f1 f2 re rel_eps : R) :
  0 < f1 -> f1 < f2 -> 0 < re ->
  log_argument f2 re rel_eps < log_argument f1 re rel_eps.
Proof.
  intros H1 H12 Hre. unfold log_argument.
  assert (S1 : 0 < sqrt f1) by now apply sqrt_lt_R0.
  assert (S12 : sqrt f1 < sqrt f2) by (apply sqrt_lt_1; lra).
  assert (P1 : 0 < re * sqrt f1) by now apply Rmult_lt_0_compat.
  assert (P12 : re * sqrt f1 < re * sqrt f2) by now apply Rmult_lt_compat_l.
  assert (I : / (re * sqrt f2) < / (re * sqrt f1)).
  { apply Rinv_lt_contravar; [apply Rmult_lt_0_compat |]; lra. }
  unfold Rdiv. lra.
Qed.

Lemma ln_10_pos : 0 < ln 10.
Proof. pose proof ln_10_gt_2. lra. Qed.

Lemma log10_increasing (x y : R) :
  0 < x -> x < y -> ln x / ln 10 < ln y / ln 10.
Proof.
  intros Hx Hxy. apply Rmult_lt_compat_r.
  - apply Rinv_0_lt_compat, ln_10_pos.
  - now apply ln_increasing.
Qed.

Lemma residual_value_decreasing (f1 f2 re rel_eps : R) :
  0 < f1 -> f1 < f2 -> 0 < re -> 0 < log_argument f2 re rel_eps ->
  residual_value f2 re rel_eps < residual_value f1 re rel_eps.
Proof.
  intros H1 H12 Hre Ha. unfold residual_value.
  assert (S1 : 0 < sqrt f1) by now apply sqrt_lt_R0.
  assert (S12 : sqrt f1 < sqrt f2) by (apply sqrt_lt_1; lra).
  assert (I : / sqrt f2 < / sqrt f1).
  { apply Rinv_lt_contravar; [apply Rmult_lt_0_compat |]; lra. }
  pose proof (log_argument_decreasing f1 f2 re rel_eps H1 H12 Hre) as A.
  pose proof (log10_increasing _ _ Ha A) as L.
  unfold Rdiv in *. lra.
Qed.

Lemma log_argument_pos (f re rel_eps : R) :
  0 < f -> 0 < re -> 0 <= rel_eps -> 0 < log_argument f re rel_eps.
Proof.
  intros Hf Hre He. unfold log_argument.
  assert (S : 0 < sqrt f) by now apply sqrt_lt_R0.
  assert (P : 0 < 2.51 / (re * sqrt f)).
  { apply Rdiv_lt_0_compat; [lra | now apply Rmult_lt_0_compat]. }
  lra.
Qed.

(** X2: for a positive Reynolds number and a relative roughness that is
    not negative, the residual has a value at every positive trial
    friction factor and is strictly decreasing in it. *)
Theorem colebrook_white_decreasing (f1 f2 re rel_eps : R) (nb : notebook) :
  0 < f1 -> f1 < f2 -> 0 < re -> 0 <= rel_eps ->
  exists y1 y2 : R,
    colebrook_white f1 re rel_eps nb = Ok y1 /\
    colebrook_white f2 re rel_eps nb = Ok y2 /\
    y2 < y1.
Proof.
  intros H1 H12 Hre He.
  exists (residual_value f1 re rel_eps), (residual_value f2 re rel_eps).
  split; [| split].
  - apply colebrook_white_value; [lra | lra | apply log_argument_pos; lra].
  - apply colebrook_white_value; [lra | lra | apply log_argument_pos; lra].
  - apply residual_value_decreasing; try lra. apply log_argument_pos; lra.
Qed.

Lemma colebrook_white_decreasing_witness :
  0 < 1 / 16 /\ 1 / 16 < 1 / 4 /\ 0 < 5000 /\ 0 <= 0.05 /\
  exists y1 y2 : R,
    colebrook_white (1 / 16) 5000 0.05 pipe_notebook = Ok y1 /\
    colebrook_white (1 / 4) 5000 0.05 pipe_notebook = Ok y2 /\
    y2 < y1.
Proof.
  split; [lra |]. split; [lra |]. split; [lra |]. split; [lra |].
  apply (colebrook_white_decreasing (1 / 16) (1 / 4) 5000 0.05 pipe_notebook); lra.
Defined.

(** ** The complete-turbulence seed *)

Lemma pow2_pos (x : R) : x <> 0 -> 0 < x ^ 2.
Proof.
  intros Hx. destruct (Rtotal_order x 0) as [H | [H | H]]; [nra | contradiction | nra].
Qed.

Lemma ln_neg (x : R) : 0 < x -> x < 1 -> ln x < 0.
Proof.
  intros H0 H1. rewrite <- ln_1. now apply ln_increasing.
Qed.

(** X3: the seed has a value, and a positive one, for every positive
    relative roughness other than [3.7]; for a negative relative roughness
    it is an invalid value, and at [3.7], where the logarithm vanishes, a
    division by zero. *)
Theorem complete_turbulence_domain (rel_eps : R) (nb : notebook) :
  (0 < rel_eps -> rel_eps <> 3.7 ->
   exists f0, colebrook_white_complete_turbulence rel_eps nb = Ok f0 /\ 0 < f0) /\
  (rel_eps < 0 ->
   colebrook_white_complete_turbulence rel_eps nb = Fail InvalidValue) /\
  (rel_eps = 3.7 ->
   colebrook_white_complete_turbulence rel_eps nb = Fail ZeroDivisionError).
Proof.
  split; [| split].
  - intros Hpos Hne. eexists. split; [now apply complete_turbulence_ok |].
    apply Rinv_0_lt_compat.
    assert (Hl : ln (rel_eps / 3.7) <> 0).
    { intros E. rewrite <- ln_1 in E. apply ln_inv in E; lra. }
    apply pow2_pos. lra.
  - intros Hneg. now apply complete_turbulence_negative.
  - intros ->. unfold colebrook_white_complete_turbulence, bind, lift.
    rewrite np_log_ok by lra.
    replace (3.7 / 3.7) with 1 by lra. rewrite ln_1.
    unfold xmul, xpow_neg2, pow_neg2. destruct (Req_dec_T (-2 * 0) 0) as [_ | N];
      [reflexivity | exfalso; apply N; ring].
Qed.

Lemma complete_turbulence_domain_witness :
  (0 < 0.05 /\ 0.05 <> 3.7 /\
   exists f0, colebrook_white_complete_turbulence 0.05 pipe_notebook = Ok f0 /\ 0 < f0) /\
  (-1 < 0 /\
   colebrook_white_complete_turbulence (-1) pipe_notebook = Fail InvalidValue) /\
  colebrook_white_complete_turbulence 3.7 pipe_notebook = Fail ZeroDivisionError.
Proof.
  split; [| split].
  - split; [lra |]. split; [lra |].
    apply (complete_turbulence_domain 0.05 pipe_notebook); lra.
  - split; [lra |]. apply (complete_turbulence_domain (-1) pipe_notebook). lra.
  - apply (complete_turbulence_domain 3.7 pipe_notebook). reflexivity.
Defined.

(** X4: below [3.7] a rougher pipe has a larger seed. *)
Theorem complete_turbulence_increasing (e1 e2 : R) (nb : notebook) :
  0 < e1 -> e1 < e2 -> e2 < 3.7 ->
  exists f1 f2 : R,
    colebrook_white_complete_turbulence e1 nb = Ok f1 /\
    colebrook_white_complete_turbulence e2 nb = Ok f2 /\
    f1 < f2.
Proof.
  intros H1 H12 H2.
  eexists. eexists.
  split; [apply complete_turbulence_ok; lra |].
  split; [apply complete_turbulence_ok; lra |].
  assert (L1 : ln (e1 / 3.7) < ln (e2 / 3.7)) by (apply ln_increasing; lra).
  assert (L2 : ln (e2 / 3.7) < 0) by (apply ln_neg; lra).
  apply Rinv_lt_contravar.
  - apply Rmult_lt_0_compat; apply pow2_pos; lra.
  - nra.
Qed.

Lemma complete_turbulence_increasing_witness :
  0 < 0.01 /\ 0.01 < 0.05 /\ 0.05 < 3.7 /\
  exists f1 f2 : R,
    colebrook_white_complete_turbulence 0.01 pipe_notebook = Ok f1 /\
    colebrook_white_complete_turbulence 0.05 pipe_notebook = Ok f2 /\
    f1 < f2.
Proof.
  split; [lra |]. split; [lra |]. split; [lra |].
  apply (complete_turbulence_increasing 0.01 0.05 pipe_notebook); lra.
Defined.

(** ** Exact roots of the residual *)

Lemma sqrt_sixteenth : sqrt (1 / 16) = 1 / 4.
Proof.
  replace (1 / 16) with ((1 / 4) ^ 2) by lra. apply sqrt_pow2. lra.
Qed.

(** [f = 1/4] is a root when the logarithm's argument there is [1/10]. *)
Lemma colebrook_white_root_quarter (re rel_eps : R) (nb : notebook) :
  re <> 0 -> rel_eps / 3.7 + 5.02 / re = 1 / 10 ->
  colebrook_white (1 / 4) re rel_eps nb = Ok 0.
Proof.
  intros Hre E.
  assert (A : log_argument (1 / 4) re rel_eps = 1 / 10).
  { unfold log_argument. rewrite sqrt_quarter. rewrite <- E.
    unfold Rdiv. rewrite Rinv_mult. lra. }
  rewrite colebrook_white_value; [| lra | exact Hre | lra].
  unfold residual_value. rewrite A, sqrt_quarter, ln_tenth.
  f_equal. pose proof ln_10_pos. field. lra.
Qed.

(** [f = 1/16] is a root when the logarithm's argument there is [1/100]. *)
Lemma colebrook_white_root_sixteenth (re rel_eps : R) (nb : notebook) :
  re <> 0 -> rel_eps / 3.7 + 10.04 / re = 1 / 100 ->
  colebrook_white (1 / 16) re rel_eps nb = Ok 0.
Proof.
  intros Hre E.
  assert (A : log_argument (1 / 16) re rel_eps = 1 / 100).
  { unfold log_argument. rewrite sqrt_sixteenth. rewrite <- E.
    unfold Rdiv. rewrite Rinv_mult. lra. }
  rewrite colebrook_white_value; [| lra | exact Hre | lra].
  unfold residual_value. rewrite A, sqrt_sixteenth, ln_hundredth.
  f_equal. pose proof ln_10_pos. field. lra.
Qed.

(** The solve with the root finder that tries a root returns it. *)
Lemma friction_factor_try_root (r re rel_eps : R) (nb : notebook) :
  0 < rel_eps -> rel_eps <> 3.7 ->
  colebrook_white r re rel_eps nb = Ok 0 ->
  @friction_factor (try_root r) re rel_eps nb = Ok r.
Proof.
  intros Hpos Hne Hroot.
  unfold friction_factor, bind, call_root_scalar, ret.
  rewrite complete_turbulence_ok by assumption.
  unfold root_scalar, try_root. rewrite Hroot.
  destruct (Req_dec_T 0 0) as [_ | N]; [reflexivity | now elim N].
Qed.

(** Two runs: [f = 1/4] at [Re = 100.4], [rel_eps = 0.185], and
    [f = 1/16] at [Re = 2008], [rel_eps = 0.0185]. *)
Lemma friction_factor_run_quarter :
  @friction_factor (try_root (1 / 4)) 100.4 0.185 pipe_notebook = Ok (1 / 4).
Proof.
  apply friction_factor_try_root; try lra.
  apply colebrook_white_root_quarter; lra.
Qed.

Lemma friction_factor_run_sixteenth :
  @friction_factor (try_root (1 / 16)) 2008 0.0185 pipe_notebook = Ok (1 / 16).
Proof.
  apply friction_factor_try_root; try lra.
  apply colebrook_white_root_sixteenth; lra.
Qed.

(** ** The friction factor, for root finders that answer roots only *)

Lemma friction_factor_root_facts {solver : RootFinder}
  (re rel_eps f : R) (nb : notebook) :
  sound solver ->
  friction_factor re rel_eps nb = Ok f ->
  0 < f /\ re <> 0 /\ 0 < log_argument f re rel_eps /\
  residual_value f re rel_eps = 0.
Proof.
  intros Hs Hf. apply (friction_factor_root _ _ _ _ Hs) in Hf.
  apply colebrook_white_inv in Hf. destruct Hf as (H1 & H2 & H3 & H4).
  repeat split; try assumption. now symmetry.
Qed.

Lemma residual_roots_equal (f1 f2 re rel_eps : R) :
  0 < re -> 0 < f1 -> 0 < f2 ->
  0 < log_argument f1 re rel_eps -> 0 < log_argument f2 re rel_eps ->
  residual_value f1 re rel_eps = 0 -> residual_value f2 re rel_eps = 0 ->
  f1 = f2.
Proof.
  intros Hre H1 H2 A1 A2 V1 V2.
  destruct (Rtotal_order f1 f2) as [L | [E | L]]; [| exact E |].
  - pose proof (residual_value_decreasing f1 f2 re rel_eps H1 L Hre A2). lra.
  - pose proof (residual_value_decreasing f2 f1 re rel_eps H2 L Hre A1). lra.
Qed.

(** X5: a friction factor that the solve returns is positive, the
    Reynolds number it was solved at is not zero, and the argument of the
    residual's logarithm at it lies strictly between 0 and 1. *)
Theorem friction_factor_positive {solver : RootFinder}
  (re rel_eps f : R) (nb : notebook) :
  sound solver ->
  friction_factor re rel_eps nb = Ok f ->
  0 < f /\ re <> 0 /\
  0 < rel_eps / 3.7 + 2.51 / (re * sqrt f) /\
  rel_eps / 3.7 + 2.51 / (re * sqrt f) < 1.
Proof.
  intros Hs Hf.
  destruct (friction_factor_root_facts re rel_eps f nb Hs Hf) as (H1 & H2 & H3 & H4).
  repeat split; try assumption.
  fold (log_argument f re rel_eps).
  destruct (Rlt_dec (log_argument f re rel_eps) 1) as [| N]; [assumption |].
  exfalso.
  assert (L : 0 <= ln (log_argument f re rel_eps)).
  { rewrite <- ln_1. destruct (Req_dec_T (log_argument f re rel_eps) 1) as [-> |];
      [lra |]. left. apply ln_increasing; lra. }
  assert (S : 0 < / sqrt f) by (apply Rinv_0_lt_compat; now apply sqrt_lt_R0).
  assert (Q : 0 <= ln (log_argument f re rel_eps) / ln 10).
  { apply Rmult_le_pos; [exact L |]. left. apply Rinv_0_lt_compat, ln_10_pos. }
  unfold residual_value in H4. unfold Rdiv in *. lra.
Qed.

Lemma friction_factor_positive_witness :
  sound (try_root (1 / 4)) /\
  @friction_factor (try_root (1 / 4)) 100.4 0.185 pipe_notebook = Ok (1 / 4) /\
  0 < 1 / 4 /\ 100.4 <> 0 /\
  0 < 0.185 / 3.7 + 2.51 / (100.4 * sqrt (1 / 4)) /\
  0.185 / 3.7 + 2.51 / (100.4 * sqrt (1 / 4)) < 1.
Proof.
  split; [apply try_root_sound |]. split; [exact friction_factor_run_quarter |].
  apply (@friction_factor_positive (try_root (1 / 4)) 100.4 0.185 (1 / 4) pipe_notebook).
  - apply try_root_sound.
  - exact friction_factor_run_quarter.
Defined.

(** X6: at a positive Reynolds number the friction factor does not depend
    on the root finder: two root finders that both return one return the
    same. *)
Theorem friction_factor_unique (solver solver' : RootFinder)
  (re rel_eps f f' : R) (nb nb' : notebook) :
  sound solver -> sound solver' -> 0 < re ->
  @friction_factor solver re rel_eps nb = Ok f ->
  @friction_factor solver' re rel_eps nb' = Ok f' ->
  f = f'.
Proof.
  intros Hs Hs' Hre Hf Hf'.
  destruct (friction_factor_root_facts re rel_eps f nb Hs Hf) as (H1 & _ & H3 & H4).
  destruct (friction_factor_root_facts re rel_eps f' nb' Hs' Hf') as (H1' & _ & H3' & H4').
  now apply (residual_roots_equal f f' re rel_eps).
Qed.

Lemma try_root_by_guess_sound (guess r r' : R) : sound (try_root_by_guess guess r r').
Proof.
  intros g x0 y. unfold root_scalar at 1, try_root_by_guess.
  destruct (Req_dec_T x0 guess); apply try_root_sound.
Qed.

(** The solve with the two-candidate root finder, when the seed is not the
    distinguished guess. *)
Lemma friction_factor_try_root_by_guess (guess r r' re rel_eps : R) (nb : notebook) :
  0 < rel_eps -> rel_eps <> 3.7 ->
  / ((-2 * ln (rel_eps / 3.7)) ^ 2) <> guess ->
  colebrook_white r' re rel_eps nb = Ok 0 ->
  @friction_factor (try_root_by_guess guess r r') re rel_eps nb = Ok r'.
Proof.
  intros Hpos Hne Hg Hroot.
  unfold friction_factor, bind, call_root_scalar, ret.
  rewrite complete_turbulence_ok by assumption.
  unfold root_scalar at 1, try_root_by_guess.
  destruct (Req_dec_T _ guess) as [E | _]; [contradiction |].
  unfold root_scalar, try_root. rewrite Hroot.
  destruct (Req_dec_T 0 0) as [_ | N]; [reflexivity | now elim N].
Qed.

(** For a relative roughness below [3.7/10] the seed is below [1/16]. *)
Lemma seed_small (rel_eps : R) :
  0 < rel_eps -> rel_eps <= 0.37 ->
  / ((-2 * ln (rel_eps / 3.7)) ^ 2) < 1 / 16.
Proof.
  intros Hpos Hle.
  assert (L : ln (rel_eps / 3.7) <= ln (1 / 10)).
  { destruct (Req_dec_T (rel_eps / 3.7) (1 / 10)) as [-> |]; [lra |].
    left. apply ln_increasing; lra. }
  rewrite ln_tenth in L. pose proof ln_10_gt_2 as H2.
  replace (1 / 16) with (/ 16) by lra.
  apply Rinv_lt_contravar; nra.
Qed.

Lemma friction_factor_unique_witness :
  sound (try_root (1 / 4)) /\ sound (try_root_by_guess 1 0 (1 / 4)) /\
  0 < 100.4 /\
  @friction_factor (try_root (1 / 4)) 100.4 0.185 pipe_notebook = Ok (1 / 4) /\
  @friction_factor (try_root_by_guess 1 0 (1 / 4)) 100.4 0.185 example_cell = Ok (1 / 4) /\
  1 / 4 = 1 / 4.
Proof.
  assert (R2 : @friction_factor (try_root_by_guess 1 0 (1 / 4)) 100.4 0.185 example_cell
               = Ok (1 / 4)).
  { apply friction_factor_try_root_by_guess; try lra.
    - pose proof (seed_small 0.185). lra.
    - apply colebrook_white_root_quarter; lra. }
  split; [apply try_root_sound |]. split; [apply try_root_by_guess_sound |].
  split; [lra |]. split; [exact friction_factor_run_quarter |]. split; [exact R2 |].
  apply (friction_factor_unique (try_root (1 / 4)) (try_root_by_guess 1 0 (1 / 4))
           100.4 0.185 (1 / 4) (1 / 4) pipe_notebook example_cell).
  - apply try_root_sound.
  - apply try_root_by_guess_sound.
  - lra.
  - exact friction_factor_run_quarter.
  - exact R2.
Defined.

Lemma residual_value_decreasing_re (f re1 re2 rel_eps : R) :
  0 < f -> 0 < re1 -> re1 < re2 -> 0 < log_argument f re2 rel_eps ->
  residual_value f re2 rel_eps < residual_value f re1 rel_eps.
Proof.
  intros Hf H1 H12 Ha.
  assert (S : 0 < sqrt f) by now apply sqrt_lt_R0.
  assert (P1 : 0 < re1 * sqrt f) by now apply Rmult_lt_0_compat.
  assert (P12 : re1 * sqrt f < re2 * sqrt f) by now apply Rmult_lt_compat_r.
  assert (I : / (re2 * sqrt f) < / (re1 * sqrt f)).
  { apply Rinv_lt_contravar; [apply Rmult_lt_0_compat |]; lra. }
  assert (A : log_argument f re2 rel_eps < log_argument f re1 rel_eps).
  { unfold log_argument, Rdiv. lra. }
  pose proof (log10_increasing _ _ Ha A). unfold residual_value. lra.
Qed.

Lemma residual_value_increasing_eps (f re e1 e2 : R) :
  e1 < e2 -> 0 < log_argument f re e1 ->
  residual_value f re e1 < residual_value f re e2.
Proof.
  intros H12 Ha.
  assert (A : log_argument f re e1 < log_argument f re e2).
  { unfold log_argument, Rdiv. lra. }
  pose proof (log10_increasing _ _ Ha A). unfold residual_value. lra.
Qed.

Lemma log_argument_le (f1 f2 re rel_eps : R) :
  0 < f1 -> f1 <= f2 -> 0 < re ->
  log_argument f2 re rel_eps <= log_argument f1 re rel_eps.
Proof.
  intros H1 H12 Hre. destruct (Req_dec_T f1 f2) as [-> |]; [lra |].
  left. apply log_argument_decreasing; lra.
Qed.

(** X7: at a positive Reynolds number and a relative roughness below
    [3.7], the seed, which is taken with the natural logarithm, is less
    than a quarter of the friction factor that the solve returns. *)
Theorem seed_below_quarter_of_root {solver : RootFinder}
  (re rel_eps f f0 : R) (nb : notebook) :
  sound solver -> 0 < re -> rel_eps < 3.7 ->
  colebrook_white_complete_turbulence rel_eps nb = Ok f0 ->
  friction_factor re rel_eps nb = Ok f ->
  4 * f0 < f.
Proof.
  intros Hs Hre Hlt Hseed Hf.
  destruct (friction_factor_root_facts re rel_eps f nb Hs Hf) as (H1 & _ & H3 & H4).
  destruct (Rtotal_order rel_eps 0) as [Hneg | [-> | Hpos]].
  { rewrite complete_turbulence_negative in Hseed by assumption. discriminate. }
  { rewrite complete_turbulence_zero in Hseed. injection Hseed as <-. lra. }
  rewrite complete_turbulence_ok in Hseed by lra. injection Hseed as <-.
  pose proof ln_10_gt_2 as H10.
  assert (S : 0 < sqrt f) by now apply sqrt_lt_R0.
  assert (B : 0 < 2.51 / (re * sqrt f)).
  { apply Rdiv_lt_0_compat; [lra | now apply Rmult_lt_0_compat]. }
  assert (A : rel_eps / 3.7 < log_argument f re rel_eps)
    by (unfold log_argument; lra).
  assert (LA : ln (rel_eps / 3.7) < ln (log_argument f re rel_eps))
    by (apply ln_increasing; lra).
  assert (LN : ln (rel_eps / 3.7) < 0) by (apply ln_neg; lra).
  set (l := ln (rel_eps / 3.7)) in *.
  set (a := ln (log_argument f re rel_eps)) in *.
  unfold residual_value in H4. fold a in H4.
  (* 1/sqrt f = -2a/ln 10 < -2l/ln 10 < -l *)
  assert (I : / sqrt f * ln 10 = -2 * a).
  { assert (E : 1 / sqrt f = -2 * (a / ln 10)) by lra.
    unfold Rdiv in E. rewrite Rmult_1_l in E. rewrite E. field. lra. }
  assert (I' : / sqrt f < - l) by nra.
  assert (J : sqrt f * / sqrt f = 1) by (apply Rinv_r; lra).
  assert (K : 1 < sqrt f * - l) by nra.
  assert (F : sqrt f * sqrt f = f) by (apply sqrt_sqrt; lra).
  assert (M : 1 < f * (l * l)) by nra.
  assert (P : 0 < (-2 * l) ^ 2) by (apply pow2_pos; lra).
  apply Rmult_lt_reg_r with ((-2 * l) ^ 2); [exact P |].
  rewrite Rmult_assoc, Rinv_l by lra. nra.
Qed.

Lemma seed_below_quarter_of_root_witness :
  sound (try_root (1 / 4)) /\ 0 < 100.4 /\ 0.185 < 3.7 /\
  colebrook_white_complete_turbulence 0.185 pipe_notebook
  = Ok (/ ((-2 * ln (0.185 / 3.7)) ^ 2)) /\
  @friction_factor (try_root (1 / 4)) 100.4 0.185 pipe_notebook = Ok (1 / 4) /\
  4 * / ((-2 * ln (0.185 / 3.7)) ^ 2) < 1 / 4.
Proof.
  assert (S : colebrook_white_complete_turbulence 0.185 pipe_notebook
              = Ok (/ ((-2 * ln (0.185 / 3.7)) ^ 2)))
    by (apply complete_turbulence_ok; lra).
  split; [apply try_root_sound |]. split; [lra |]. split; [lra |].
  split; [exact S |]. split; [exact friction_factor_run_quarter |].
  apply (@seed_below_quarter_of_root (try_root (1 / 4)) 100.4 0.185 (1 / 4) _ pipe_notebook).
  - apply try_root_sound.
  - lra.
  - lra.
  - exact S.
  - exact friction_factor_run_quarter.
Defined.

(** X8: the friction factor is strictly decreasing in the Reynolds
    number: at a larger positive Reynolds number and the same relative
    roughness, the solve returns a smaller friction factor. *)
Theorem friction_factor_decreasing_in_reynolds (solver solver' : RootFinder)
  (re re' rel_eps f f' : R) (nb nb' : notebook) :
  sound solver -> sound solver' -> 0 < re -> re < re' ->
  @friction_factor solver re rel_eps nb = Ok f ->
  @friction_factor solver' re' rel_eps nb' = Ok f' ->
  f' < f.
Proof.
  intros Hs Hs' Hre Hlt Hf Hf'.
  destruct (friction_factor_root_facts re rel_eps f nb Hs Hf) as (H1 & _ & H3 & H4).
  destruct (friction_factor_root_facts re' rel_eps f' nb' Hs' Hf') as (H1' & _ & H3' & H4').
  destruct (Rlt_dec f' f) as [| N]; [assumption |]. exfalso.
  assert (Hle : f <= f') by lra.
  assert (A : 0 < log_argument f re' rel_eps).
  { pose proof (log_argument_le f f' re' rel_eps H1 Hle). lra. }
  pose proof (residual_value_decreasing_re f re re' rel_eps H1 Hre Hlt A) as D.
  destruct (Req_dec_T f f') as [E | NE].
  - subst f'. lra.
  - pose proof (residual_value_decreasing f f' re' rel_eps H1) as D'. lra.
Qed.

Lemma friction_factor_run_quarter_low_reynolds :
  @friction_factor (try_root (1 / 4)) (1004 / 19) 0.0185 pipe_notebook = Ok (1 / 4).
Proof.
  apply friction_factor_try_root; try lra.
  apply colebrook_white_root_quarter; lra.
Qed.

Lemma friction_factor_decreasing_in_reynolds_witness :
  sound (try_root (1 / 4)) /\ sound (try_root (1 / 16)) /\
  0 < 1004 / 19 /\ 1004 / 19 < 2008 /\
  @friction_factor (try_root (1 / 4)) (1004 / 19) 0.0185 pipe_notebook = Ok (1 / 4) /\
  @friction_factor (try_root (1 / 16)) 2008 0.0185 pipe_notebook = Ok (1 / 16) /\
  1 / 16 < 1 / 4.
Proof.
  split; [apply try_root_sound |]. split; [apply try_root_sound |].
  split; [lra |]. split; [lra |].
  split; [exact friction_factor_run_quarter_low_reynolds |].
  split; [exact friction_factor_run_sixteenth |].
  apply (friction_factor_decreasing_in_reynolds (try_root (1 / 4)) (try_root (1 / 16))
           (1004 / 19) 2008 0.0185 (1 / 4) (1 / 16) pipe_notebook pipe_notebook).
  - apply try_root_sound.
  - apply try_root_sound.
  - lra.
  - lra.
  - exact friction_factor_run_quarter_low_reynolds.
  - exact friction_factor_run_sixteenth.
Defined.

(** X9: the friction factor is strictly increasing in the relative
    roughness: at a positive Reynolds number, the solve returns a larger
    friction factor for a rougher pipe. *)
Theorem friction_factor_increasing_in_roughness (solver solver' : RootFinder)
  (re rel_eps rel_eps' f f' : R) (nb nb' : notebook) :
  sound solver -> sound solver' -> 0 < re -> rel_eps < rel_eps' ->
  @friction_factor solver re rel_eps nb = Ok f ->
  @friction_factor solver' re rel_eps' nb' = Ok f' ->
  f < f'.
Proof.
  intros Hs Hs' Hre Hlt Hf Hf'.
  destruct (friction_factor_root_facts re rel_eps f nb Hs Hf) as (H1 & _ & H3 & H4).
  destruct (friction_factor_root_facts re rel_eps' f' nb' Hs' Hf') as (H1' & _ & H3' & H4').
  destruct (Rlt_dec f f') as [| N]; [assumption |]. exfalso.
  pose proof (residual_value_increasing_eps f re rel_eps rel_eps' Hlt H3) as I.
  assert (A : 0 < log_argument f re rel_eps').
  { unfold log_argument in *. unfold Rdiv in *. lra. }
  destruct (Req_dec_T f f') as [E | NE].
  - subst f'. lra.
  - assert (L : f' < f) by lra.
    pose proof (residual_value_decreasing f' f re rel_eps' H1' L Hre A). lra.
Qed.

Lemma friction_factor_run_quarter_rough :
  @friction_factor (try_root (1 / 4)) 2008 0.36075 pipe_notebook = Ok (1 / 4).
Proof.
  apply friction_factor_try_root; try lra.
  apply colebrook_white_root_quarter; lra.
Qed.

Lemma friction_factor_increasing_in_roughness_witness :
  sound (try_root (1 / 16)) /\ sound (try_root (1 / 4)) /\
  0 < 2008 /\ 0.0185 < 0.36075 /\
  @friction_factor (try_root (1 / 16)) 2008 0.0185 pipe_notebook = Ok (1 / 16) /\
  @friction_factor (try_root (1 / 4)) 2008 0.36075 pipe_notebook = Ok (1 / 4) /\
  1 / 16 < 1 / 4.
Proof.
  split; [apply try_root_sound |]. split; [apply try_root_sound |].
  split; [lra |]. split; [lra |].
  split; [exact friction_factor_run_sixteenth |].
  split; [exact friction_factor_run_quarter_rough |].
  apply (friction_factor_increasing_in_roughness (try_root (1 / 16)) (try_root (1 / 4))
           2008 0.0185 0.36075 (1 / 16) (1 / 4) pipe_notebook pipe_notebook).
  - apply try_root_sound.
  - apply try_root_sound.
  - lra.
  - lra.
  - exact friction_factor_run_sixteenth.
  - exact friction_factor_run_quarter_rough.
Defined.

(** The sign of the residual at [1/4] and at [1/16]. *)
Lemma residual_value_quarter_neg (re rel_eps : R) :
  0 < log_argument (1 / 4) re rel_eps ->
  log_argument (1 / 4) re rel_eps < 1 / 10 ->
  residual_value (1 / 4) re rel_eps < 0.
Proof.
  intros H0 H1. unfold residual_value. rewrite sqrt_quarter.
  pose proof (log10_increasing _ _ H0 H1) as L. rewrite ln_tenth in L.
  pose proof ln_10_pos.
  replace (- ln 10 / ln 10) with (-1) in L by (field; lra). lra.
Qed.

Lemma residual_value_sixteenth_pos (re rel_eps : R) :
  1 / 100 < log_argument (1 / 16) re rel_eps ->
  0 < residual_value (1 / 16) re rel_eps.
Proof.
  intros H1. unfold residual_value. rewrite sqrt_sixteenth.
  assert (H0 : 0 < 1 / 100) by lra.
  pose proof (log10_increasing _ _ H0 H1) as L. rewrite ln_hundredth in L.
  pose proof ln_10_pos.
  replace (- (2 * ln 10) / ln 10) with (-2) in L by (field; lra). lra.
Qed.

(** X10: a bracket for the friction factor at a positive Reynolds number.
    It is below [1/4] when [rel_eps/3.7 + 5.02/Re < 1/10], which holds for
    every [Re >= 4000] with [rel_eps <= 0.05], and above [1/16] when
    [rel_eps/3.7 + 10.04/Re > 1/100], which holds for every
    [rel_eps > 0.037] and for every [Re < 1004] with [rel_eps >= 0]. *)
Theorem friction_factor_bracket {solver : RootFinder}
  (re rel_eps f : R) (nb : notebook) :
  sound solver -> 0 < re ->
  friction_factor re rel_eps nb = Ok f ->
  (0 <= rel_eps -> rel_eps / 3.7 + 5.02 / re < 1 / 10 -> f < 1 / 4) /\
  (1 / 100 < rel_eps / 3.7 + 10.04 / re -> 1 / 16 < f).
Proof.
  intros Hs Hre Hf.
  destruct (friction_factor_root_facts re rel_eps f nb Hs Hf) as (H1 & _ & H3 & H4).
  split.
  - intros He Hc.
    assert (A : log_argument (1 / 4) re rel_eps = rel_eps / 3.7 + 5.02 / re).
    { unfold log_argument. rewrite sqrt_quarter. unfold Rdiv. rewrite Rinv_mult. lra. }
    assert (P : 0 < log_argument (1 / 4) re rel_eps)
      by (apply log_argument_pos; lra).
    pose proof (residual_value_quarter_neg re rel_eps P) as V. rewrite A in V.
    specialize (V Hc).
    destruct (Rlt_dec f (1 / 4)) as [| N]; [assumption |]. exfalso.
    destruct (Req_dec_T f (1 / 4)) as [E | NE].
    + subst f. lra.
    + assert (L : 1 / 4 < f) by lra.
      assert (Q : 0 < 1 / 4) by lra.
      pose proof (residual_value_decreasing (1 / 4) f re rel_eps Q L Hre H3). lra.
  - intros Hc.
    assert (A : log_argument (1 / 16) re rel_eps = rel_eps / 3.7 + 10.04 / re).
    { unfold log_argument. rewrite sqrt_sixteenth. unfold Rdiv. rewrite Rinv_mult. lra. }
    assert (V : 0 < residual_value (1 / 16) re rel_eps).
    { apply residual_value_sixteenth_pos. rewrite A. exact Hc. }
    destruct (Rlt_dec (1 / 16) f) as [| N]; [assumption |]. exfalso.
    destruct (Req_dec_T f (1 / 16)) as [E | NE].
    + subst f. lra.
    + assert (L : f < 1 / 16) by lra.
      assert (P : 0 < log_argument (1 / 16) re rel_eps) by (rewrite A; lra).
      pose proof (residual_value_decreasing f (1 / 16) re rel_eps H1 L Hre P). lra.
Qed.

Lemma friction_factor_bracket_witness :
  (sound (try_root (1 / 16)) /\ 0 < 2008 /\
   @friction_factor (try_root (1 / 16)) 2008 0.0185 pipe_notebook = Ok (1 / 16) /\
   0 <= 0.0185 /\ 0.0185 / 3.7 + 5.02 / 2008 < 1 / 10 /\ 1 / 16 < 1 / 4) /\
  (sound (try_root (1 / 4)) /\ 0 < 100.4 /\
   @friction_factor (try_root (1 / 4)) 100.4 0.185 pipe_notebook = Ok (1 / 4) /\
   1 / 100 < 0.185 / 3.7 + 10.04 / 100.4 /\ 1 / 16 < 1 / 4).
Proof.
  split.
  - split; [apply try_root_sound |]. split; [lra |].
    split; [exact friction_factor_run_sixteenth |]. split; [lra |]. split; [lra |].
    apply (@friction_factor_bracket (try_root (1 / 16)) 2008 0.0185 (1 / 16) pipe_notebook).
    + apply try_root_sound.
    + lra.
    + exact friction_factor_run_sixteenth.
    + lra.
    + lra.
  - split; [apply try_root_sound |]. split; [lra |].
    split; [exact friction_factor_run_quarter |]. split; [lra |].
    apply (@friction_factor_bracket (try_root (1 / 4)) 100.4 0.185 (1 / 4) pipe_notebook).
    + apply try_root_sound.
    + lra.
    + exact friction_factor_run_quarter.
    + lra.
Defined.

(** ** The head loss and the roots of the energy equation *)

Lemma head_difference_value (Q : R) :
  p_1 / (RHO * G) + (Q / area_1) ^ 4 / (2 * G) + z_1
  - (p_2 / (RHO * G) + (Q / area_2) ^ 4 / (2 * G) + z_2)
  = 1 / (20 * G).
Proof.
  rewrite area_1_val, area_2_val. unfold z_1, z_2, p_1, p_2, RHO, G. lra.
Qed.

Lemma reynolds_value (v : R) : RHO * v * d_pipe / MU = 100000 * v.
Proof. unfold RHO, d_pipe, MU. lra. Qed.

Lemma head_loss_value (v f : R) :
  length / d_pipe * v ^ 2 / (2 * G) * f = v ^ 2 * f / (2 * G) * 10.
Proof. unfold length, d_pipe, G. lra. Qed.

Section HeadLossFacts.

Context {solver : RootFinder}.

Lemma head_f_inv (Q h : R) (nb : notebook) :
  head_f Q nb = Ok h ->
  exists f,
    friction_factor (100000 * (Q / area_pipe) ^ 2) (nb_rel_eps nb) nb = Ok f /\
    h = ((Q / area_pipe) ^ 2) ^ 2 * f / (2 * G) * 10.
Proof.
  rewrite head_f_eq. unfold bind, ret. rewrite reynolds_value.
  destruct (friction_factor _ _ nb) as [f | e]; [| discriminate].
  intros H. injection H as <-. exists f. split; [reflexivity |].
  apply head_loss_value.
Qed.

Lemma energy_equation_inv (Q r : R) (nb : notebook) :
  energy_equation Q nb = Ok r ->
  exists h, head_f Q nb = Ok h /\ r = 1 / (20 * G) - h.
Proof.
  unfold energy_equation, bind. rewrite head_1_eq, head_2_eq.
  destruct (head_f Q nb) as [h | e]; [| discriminate].
  unfold ret. intros H. injection H as <-. exists h. split; [reflexivity |].
  rewrite <- (head_difference_value Q). reflexivity.
Qed.

Lemma head_f_root (Q h : R) (nb : notebook) :
  sound solver -> head_f Q nb = Ok h ->
  exists f,
    0 < f /\ Q <> 0 /\ 0 < (Q / area_pipe) ^ 2 /\
    residual_value f (100000 * (Q / area_pipe) ^ 2) (nb_rel_eps nb) = 0 /\
    h = ((Q / area_pipe) ^ 2) ^ 2 * f / (2 * G) * 10.
Proof.
  intros Hs Hh. apply head_f_inv in Hh. destruct Hh as (f & Hf & ->).
  destruct (friction_factor_root_facts _ _ _ _ Hs Hf) as (H1 & H2 & _ & H4).
  assert (HQ : Q <> 0).
  { intros ->. apply H2. unfold Rdiv. ring. }
  exists f. repeat split; try assumption.
  apply pow2_pos. pose proof area_pipe_pos.
  unfold Rdiv. apply Rmult_integral_contrapositive_currified; [exact HQ |].
  apply Rinv_neq_0_compat. lra.
Qed.

Lemma head_loss_pos (v f : R) : 0 < v -> 0 < f -> 0 < v ^ 2 * f / (2 * G) * 10.
Proof.
  intros Hv Hf.
  assert (Hv2 : 0 < v ^ 2) by (apply pow2_pos; lra).
  assert (Hg : 0 < / (2 * G)) by (apply Rinv_0_lt_compat; unfold G; lra).
  assert (P1 : 0 < v ^ 2 * f) by now apply Rmult_lt_0_compat.
  assert (P2 : 0 < v ^ 2 * f * / (2 * G)) by now apply Rmult_lt_0_compat.
  unfold Rdiv. lra.
Qed.

(** X11: a head loss that [head_f] returns is strictly positive, and it
    is returned at a flow rate other than zero only. *)
Theorem head_f_positive (Q h : R) (nb : notebook) :
  sound solver -> head_f Q nb = Ok h -> Q <> 0 /\ 0 < h.
Proof.
  intros Hs Hh.
  destruct (head_f_root Q h nb Hs Hh) as (f & Hf & HQ & Hv & _ & ->).
  split; [exact HQ |]. now apply head_loss_pos.
Qed.

(** X12: an energy residual that has a value lies strictly below the
    difference of the pressure heads, [(p_1 - p_2)/(rho*g)], and it has a
    value at a flow rate other than zero only. *)
Theorem energy_equation_bounded (Q r : R) (nb : notebook) :
  sound solver -> energy_equation Q nb = Ok r ->
  Q <> 0 /\ r < (p_1 - p_2) / (RHO * G).
Proof.
  intros Hs Hr. apply energy_equation_inv in Hr. destruct Hr as (h & Hh & ->).
  destruct (head_f_root Q h nb Hs Hh) as (f & Hf & HQ & Hv & _ & ->).
  split; [exact HQ |].
  pose proof (head_loss_pos _ _ Hv Hf) as Hpos.
  replace ((p_1 - p_2) / (RHO * G)) with (1 / (20 * G))
    by (unfold p_1, p_2, RHO, G; lra).
  lra.
Qed.

End HeadLossFacts.

(** ** The flow rate in closed form *)

Lemma inverse_sqrt_friction_pos (rel_eps : R) :
  0 < rel_eps / 3.7 + 2.51 / 10000 -> rel_eps / 3.7 + 2.51 / 10000 < 1 ->
  0 < inverse_sqrt_friction rel_eps.
Proof.
  intros H0 H1. unfold inverse_sqrt_friction.
  pose proof (ln_neg _ H0 H1) as L. pose proof ln_10_pos as T.
  assert (Q : 0 < - ln (rel_eps / 3.7 + 2.51 / 10000) * / ln 10).
  { apply Rmult_lt_0_compat; [lra | now apply Rinv_0_lt_compat]. }
  unfold Rdiv. lra.
Qed.

Lemma sqrt_inv_sq (s : R) : 0 < s -> sqrt (/ s ^ 2) = / s.
Proof.
  intros Hs. rewrite sqrt_inv, sqrt_pow2 by lra. reflexivity.
Qed.

(** The friction factor [1/s^2], with [s = inverse_sqrt_friction rel_eps],
    is a root of the residual at the Reynolds number [10000*s]. *)
Lemma colebrook_white_balanced_root (rel_eps : R) (nb : notebook) :
  0 < rel_eps / 3.7 + 2.51 / 10000 -> rel_eps / 3.7 + 2.51 / 10000 < 1 ->
  colebrook_white (/ inverse_sqrt_friction rel_eps ^ 2)
                  (10000 * inverse_sqrt_friction rel_eps) rel_eps nb = Ok 0.
Proof.
  intros H0 H1. pose proof (inverse_sqrt_friction_pos rel_eps H0 H1) as Hs.
  set (s := inverse_sqrt_friction rel_eps) in *.
  assert (A : log_argument (/ s ^ 2) (10000 * s) rel_eps
              = rel_eps / 3.7 + 2.51 / 10000).
  { unfold log_argument. rewrite sqrt_inv_sq by assumption.
    replace (10000 * s * / s) with 10000 by (field; lra). reflexivity. }
  rewrite colebrook_white_value.
  - f_equal. unfold residual_value. rewrite A, sqrt_inv_sq by assumption.
    replace (1 / / s) with s by (field; lra).
    unfold s, inverse_sqrt_friction. lra.
  - apply Rinv_0_lt_compat, pow2_pos. lra.
  - lra.
  - rewrite A. exact H0.
Qed.

Lemma balanced_flow_rate_square (rel_eps : R) :
  0 < inverse_sqrt_friction rel_eps ->
  (balanced_flow_rate rel_eps / area_pipe) ^ 2 = inverse_sqrt_friction rel_eps / 10.
Proof.
  intros Hs. unfold balanced_flow_rate. pose proof area_pipe_pos.
  replace (area_pipe * sqrt (inverse_sqrt_friction rel_eps / 10) / area_pipe)
    with (sqrt (inverse_sqrt_friction rel_eps / 10)) by (field; lra).
  apply pow2_sqrt. lra.
Qed.

Section FlowRateFacts.

Context {solver : RootFinder}.

(** When the solve at [Re = 10000*s] returns [1/s^2], the energy residual
    vanishes at the balanced flow rate. *)
Lemma energy_equation_balanced (nb : notebook) :
  0 < inverse_sqrt_friction (nb_rel_eps nb) ->
  friction_factor (10000 * inverse_sqrt_friction (nb_rel_eps nb)) (nb_rel_eps nb) nb
  = Ok (/ inverse_sqrt_friction (nb_rel_eps nb) ^ 2) ->
  head_f (balanced_flow_rate (nb_rel_eps nb)) nb = Ok (1 / (20 * G)) /\
  energy_equation (balanced_flow_rate (nb_rel_eps nb)) nb = Ok 0.
Proof.
  intros Hs Hf.
  assert (Hh : head_f (balanced_flow_rate (nb_rel_eps nb)) nb = Ok (1 / (20 * G))).
  { rewrite head_f_eq. unfold bind, ret.
    rewrite reynolds_value, balanced_flow_rate_square by assumption.
    replace (100000 * (inverse_sqrt_friction (nb_rel_eps nb) / 10))
      with (10000 * inverse_sqrt_friction (nb_rel_eps nb)) by lra.
    rewrite Hf. f_equal. rewrite head_loss_value.
    unfold G. field. lra. }
  split; [exact Hh |].
  unfold energy_equation, bind. rewrite head_1_eq, head_2_eq, Hh. unfold ret.
  f_equal. rewrite head_difference_value. lra.
Qed.

(** What a root of the energy equation looks like. *)
Lemma energy_equation_root_facts (Q : R) (nb : notebook) :
  sound solver -> energy_equation Q nb = Ok 0 ->
  0 < inverse_sqrt_friction (nb_rel_eps nb) /\
  (Q / area_pipe) ^ 2 = inverse_sqrt_friction (nb_rel_eps nb) / 10 /\
  friction_factor (10000 * inverse_sqrt_friction (nb_rel_eps nb)) (nb_rel_eps nb) nb
  = Ok (/ inverse_sqrt_friction (nb_rel_eps nb) ^ 2).
Proof.
  intros Hsound Hr.
  destruct (energy_equation_inv Q 0 nb Hr) as (h & Hh & Eh).
  destruct (head_f_inv Q h nb Hh) as (f & Hf & Eh').
  destruct (friction_factor_root_facts _ _ _ _ Hsound Hf) as (Hfpos & Hre & Harg & Hval).
  set (v := (Q / area_pipe) ^ 2) in *.
  set (rel_eps := nb_rel_eps nb) in *.
  assert (Hv : 0 < v).
  { assert (0 <= v) by (unfold v; apply pow2_ge_0). lra. }
  assert (Sf : 0 < sqrt f) by now apply sqrt_lt_R0.
  assert (Ff : sqrt f * sqrt f = f) by (apply sqrt_sqrt; lra).
  (* the head loss balances the pressure heads: v^2 * f = 1/100 *)
  assert (B : v ^ 2 * f = 1 / 100).
  { assert (E : v ^ 2 * f / (2 * G) * 10 = 1 / (20 * G)) by lra.
    unfold G in E. lra. }
  assert (W : v * sqrt f = 1 / 10).
  { assert (Wp : 0 < v * sqrt f) by now apply Rmult_lt_0_compat.
    assert (W2 : (v * sqrt f) * (v * sqrt f) = 1 / 100).
    { replace (v * sqrt f * (v * sqrt f)) with (v ^ 2 * (sqrt f * sqrt f)) by ring.
      rewrite Ff. exact B. }
    nra. }
  assert (A : log_argument f (100000 * v) rel_eps = rel_eps / 3.7 + 2.51 / 10000).
  { unfold log_argument.
    replace (100000 * v * sqrt f) with 10000 by lra. reflexivity. }
  assert (S : / sqrt f = inverse_sqrt_friction rel_eps).
  { unfold residual_value in Hval. rewrite A in Hval.
    unfold inverse_sqrt_friction. lra. }
  assert (Spos : 0 < inverse_sqrt_friction rel_eps).
  { rewrite <- S. now apply Rinv_0_lt_compat. }
  set (s := inverse_sqrt_friction rel_eps) in *.
  assert (Sf' : sqrt f = / s) by (rewrite <- S, Rinv_inv; reflexivity).
  assert (Ef : f = / s ^ 2).
  { rewrite <- Ff, Sf'. field. lra. }
  assert (Ev : v = s / 10).
  { rewrite Sf' in W.
    replace v with (v * / s * s) by (field; lra). rewrite W. lra. }
  split; [exact Spos |]. split; [exact Ev |].
  rewrite <- Ef. replace (10000 * s) with (100000 * v) by lra. exact Hf.
Qed.

Lemma square_root_cases (q c : R) :
  0 <= c -> q ^ 2 = c -> q = sqrt c \/ q = - sqrt c.
Proof.
  intros Hc E. destruct (Rle_dec 0 q) as [P | N].
  - left. rewrite <- E. symmetry. now apply sqrt_pow2.
  - right. rewrite <- E. replace (q ^ 2) with ((- q) ^ 2) by ring.
    rewrite sqrt_pow2 by lra. ring.
Qed.

Lemma flow_rate_cases (Q rel_eps : R) :
  0 < inverse_sqrt_friction rel_eps ->
  (Q / area_pipe) ^ 2 = inverse_sqrt_friction rel_eps / 10 ->
  Q = balanced_flow_rate rel_eps \/ Q = - balanced_flow_rate rel_eps.
Proof.
  intros Hs E. pose proof area_pipe_pos as Ha.
  apply square_root_cases in E; [| lra].
  unfold balanced_flow_rate.
  assert (HQ : Q = area_pipe * (Q / area_pipe)) by (field; lra).
  destruct E as [E | E]; rewrite E in HQ; [left | right]; lra.
Qed.

(** X13: the roots of the energy equation in closed form.  With
    [s = -2*log10(rel_eps/3.7 + 2.51/10000)] for the relative roughness of
    the namespace, the energy residual vanishes at [Q] exactly when [s] is
    positive, [Q] is [area_pipe * sqrt (s/10)] or its opposite, and the
    solve at the Reynolds number [10000*s] returns the friction factor
    [1/s^2]. *)
Theorem energy_equation_roots (Q : R) (nb : notebook) :
  sound solver ->
  (energy_equation Q nb = Ok 0 <->
   0 < inverse_sqrt_friction (nb_rel_eps nb) /\
   (Q = balanced_flow_rate (nb_rel_eps nb) \/
    Q = - balanced_flow_rate (nb_rel_eps nb)) /\
   friction_factor (10000 * inverse_sqrt_friction (nb_rel_eps nb)) (nb_rel_eps nb) nb
   = Ok (/ inverse_sqrt_friction (nb_rel_eps nb) ^ 2)).
Proof.
  intros Hsound. split.
  - intros Hr.
    destruct (energy_equation_root_facts Q nb Hsound Hr) as (Hs & Ev & Hf).
    split; [exact Hs |]. split; [| exact Hf].
    now apply flow_rate_cases.
  - intros (Hs & HQ & Hf).
    destruct (energy_equation_balanced nb Hs Hf) as [_ Hr].
    destruct HQ as [-> | ->]; [exact Hr |].
    unfold energy_equation. rewrite head_1_opp, head_2_opp, head_f_opp. exact Hr.
Qed.

(** X14: the flow rate the last cell prints.  When the root finder
    returns a flow rate for the energy equation, it is the balanced flow
    rate or its opposite, and the opposite flow rate is a root of the
    energy equation as well: the sign of the answer is the root finder's
    choice. *)
Theorem flow_rate_closed_form (Q : R) (nb : notebook) :
  sound solver -> flow_rate nb = Ok Q ->
  (Q = balanced_flow_rate (nb_rel_eps nb) \/
   Q = - balanced_flow_rate (nb_rel_eps nb)) /\
  energy_equation Q nb = Ok 0 /\
  energy_equation (- Q) nb = Ok 0.
Proof.
  intros Hsound HQ.
  assert (Hr : energy_equation Q nb = Ok 0).
  { unfold flow_rate, call_root_scalar in HQ. exact (Hsound _ _ _ HQ). }
  destruct (energy_equation_root_facts Q nb Hsound Hr) as (Hs & Ev & _).
  split; [now apply flow_rate_cases |]. split; [exact Hr |].
  unfold energy_equation. rewrite head_1_opp, head_2_opp, head_f_opp. exact Hr.
Qed.

End FlowRateFacts.

(** ** Runs of the pipe problem *)

Lemma log_argument_balanced_range (rel_eps : R) :
  0 < rel_eps -> rel_eps <= 0.37 ->
  0 < rel_eps / 3.7 + 2.51 / 10000 /\ rel_eps / 3.7 + 2.51 / 10000 < 1.
Proof. intros H0 H1. lra. Qed.

(** With the root finder that tries [1/s^2], the head loss at the
    balanced flow rate is the difference of the pressure heads and the
    energy residual vanishes. *)
Lemma energy_equation_run (nb : notebook) :
  0 < nb_rel_eps nb -> nb_rel_eps nb <= 0.37 ->
  @head_f (try_root (/ inverse_sqrt_friction (nb_rel_eps nb) ^ 2))
          (balanced_flow_rate (nb_rel_eps nb)) nb = Ok (1 / (20 * G)) /\
  @energy_equation (try_root (/ inverse_sqrt_friction (nb_rel_eps nb) ^ 2))
          (balanced_flow_rate (nb_rel_eps nb)) nb = Ok 0.
Proof.
  intros H0 H1.
  destruct (log_argument_balanced_range _ H0 H1) as [A0 A1].
  apply energy_equation_balanced.
  - now apply inverse_sqrt_friction_pos.
  - apply friction_factor_try_root; [lra | lra |].
    now apply colebrook_white_balanced_root.
Qed.

(** With the two-candidate root finder, the last cell of the notebook
    returns the balanced flow rate. *)
Lemma flow_rate_run (nb : notebook) :
  0 < nb_rel_eps nb -> nb_rel_eps nb <= 0.37 ->
  @flow_rate (try_root_by_guess 1 (balanced_flow_rate (nb_rel_eps nb))
                                  (/ inverse_sqrt_friction (nb_rel_eps nb) ^ 2)) nb
  = Ok (balanced_flow_rate (nb_rel_eps nb)).
Proof.
  intros H0 H1.
  destruct (log_argument_balanced_range _ H0 H1) as [A0 A1].
  unfold flow_rate, call_root_scalar.
  unfold root_scalar at 1, try_root_by_guess at 1.
  destruct (Req_dec_T 1 1) as [_ | N]; [| now elim N].
  unfold root_scalar at 1, try_root at 1.
  assert (Hr : @energy_equation
                 (try_root_by_guess 1 (balanced_flow_rate (nb_rel_eps nb))
                                    (/ inverse_sqrt_friction (nb_rel_eps nb) ^ 2))
                 (balanced_flow_rate (nb_rel_eps nb)) nb = Ok 0).
  { apply energy_equation_balanced.
    - now apply inverse_sqrt_friction_pos.
    - apply friction_factor_try_root_by_guess; [lra | lra | |].
      + pose proof (seed_small _ H0 H1). lra.
      + now apply colebrook_white_balanced_root. }
  rewrite Hr. destruct (Req_dec_T 0 0) as [_ | N]; [reflexivity | now elim N].
Qed.

Lemma pipe_notebook_rel_eps_range :
  0 < nb_rel_eps pipe_notebook /\ nb_rel_eps pipe_notebook <= 0.37.
Proof. rewrite pipe_notebook_rel_eps. lra. Qed.

Lemma head_f_positive_witness :
  sound (try_root (/ inverse_sqrt_friction (nb_rel_eps pipe_notebook) ^ 2)) /\
  @head_f (try_root (/ inverse_sqrt_friction (nb_rel_eps pipe_notebook) ^ 2))
          (balanced_flow_rate (nb_rel_eps pipe_notebook)) pipe_notebook
  = Ok (1 / (20 * G)) /\
  balanced_flow_rate (nb_rel_eps pipe_notebook) <> 0 /\ 0 < 1 / (20 * G).
Proof.
  destruct pipe_notebook_rel_eps_range as [H0 H1].
  destruct (energy_equation_run pipe_notebook H0 H1) as [Hh _].
  split; [apply try_root_sound |]. split; [exact Hh |].
  apply (@head_f_positive _ _ _ pipe_notebook (try_root_sound _) Hh).
Defined.

Lemma energy_equation_bounded_witness :
  sound (try_root (/ inverse_sqrt_friction (nb_rel_eps pipe_notebook) ^ 2)) /\
  @energy_equation (try_root (/ inverse_sqrt_friction (nb_rel_eps pipe_notebook) ^ 2))
          (balanced_flow_rate (nb_rel_eps pipe_notebook)) pipe_notebook = Ok 0 /\
  balanced_flow_rate (nb_rel_eps pipe_notebook) <> 0 /\
  0 < (p_1 - p_2) / (RHO * G).
Proof.
  destruct pipe_notebook_rel_eps_range as [H0 H1].
  destruct (energy_equation_run pipe_notebook H0 H1) as [_ Hr].
  split; [apply try_root_sound |]. split; [exact Hr |].
  apply (@energy_equation_bounded _ _ _ pipe_notebook (try_root_sound _) Hr).
Defined.

Lemma energy_equation_roots_witness :
  sound (try_root (/ inverse_sqrt_friction (nb_rel_eps pipe_notebook) ^ 2)) /\
  @energy_equation (try_root (/ inverse_sqrt_friction (nb_rel_eps pipe_notebook) ^ 2))
          (balanced_flow_rate (nb_rel_eps pipe_notebook)) pipe_notebook = Ok 0 /\
  0 < inverse_sqrt_friction (nb_rel_eps pipe_notebook) /\
  @friction_factor (try_root (/ inverse_sqrt_friction (nb_rel_eps pipe_notebook) ^ 2))
          (10000 * inverse_sqrt_friction (nb_rel_eps pipe_notebook))
          (nb_rel_eps pipe_notebook) pipe_notebook
  = Ok (/ inverse_sqrt_friction (nb_rel_eps pipe_notebook) ^ 2).
Proof.
  destruct pipe_notebook_rel_eps_range as [H0 H1].
  destruct (energy_equation_run pipe_notebook H0 H1) as [_ Hr].
  split; [apply try_root_sound |]. split; [exact Hr |].
  destruct (proj1 (@energy_equation_roots _ _ pipe_notebook (try_root_sound _)) Hr)
    as (Hs & _ & Hf).
  split; [exact Hs | exact Hf].
Defined.

Lemma flow_rate_closed_form_witness :
  sound (try_root_by_guess 1 (balanced_flow_rate (nb_rel_eps pipe_notebook))
           (/ inverse_sqrt_friction (nb_rel_eps pipe_notebook) ^ 2)) /\
  @flow_rate (try_root_by_guess 1 (balanced_flow_rate (nb_rel_eps pipe_notebook))
                (/ inverse_sqrt_friction (nb_rel_eps pipe_notebook) ^ 2)) pipe_notebook
  = Ok (balanced_flow_rate (nb_rel_eps pipe_notebook)) /\
  @energy_equation (try_root_by_guess 1 (balanced_flow_rate (nb_rel_eps pipe_notebook))
                      (/ inverse_sqrt_friction (nb_rel_eps pipe_notebook) ^ 2))
     (- balanced_flow_rate (nb_rel_eps pipe_notebook)) pipe_notebook = Ok 0.
Proof.
  destruct pipe_notebook_rel_eps_range as [H0 H1].
  pose proof (flow_rate_run pipe_notebook H0 H1) as HQ.
  split; [apply try_root_by_guess_sound |]. split; [exact HQ |].
  apply (@flow_rate_closed_form _ _ pipe_notebook (try_root_by_guess_sound _ _ _) HQ).
Defined.

Lemma ln_thousandth : ln (1 / 1000) = - (3 * ln 10).
Proof.
  replace (1 / 1000) with (/ (10 * (10 * 10))) by lra.
  rewrite ln_Rinv by lra. rewrite !ln_mult by lra. lra.
Qed.

Lemma inverse_sqrt_friction_range (rel_eps : R) :
  0.003 <= rel_eps -> rel_eps <= 0.036 ->
  4 < inverse_sqrt_friction rel_eps /\ inverse_sqrt_friction rel_eps < 6.
Proof.
  intros H0 H1. unfold inverse_sqrt_friction.
  set (a := rel_eps / 3.7 + 2.51 / 10000).
  assert (A0 : 1 / 1000 < a) by (unfold a; lra).
  assert (A1 : a < 1 / 100) by (unfold a; lra).
  assert (P : 0 < 1 / 1000) by lra.
  assert (Pa : 0 < a) by lra.
  pose proof (log10_increasing _ _ P A0) as L0.
  pose proof (log10_increasing _ _ Pa A1) as L1.
  rewrite ln_thousandth in L0. rewrite ln_hundredth in L1.
  pose proof ln_10_pos.
  replace (- (3 * ln 10) / ln 10) with (-3) in L0 by (field; lra).
  replace (- (2 * ln 10) / ln 10) with (-2) in L1 by (field; lra).
  lra.
Qed.

(** X15: the size of the solution.  For a relative roughness in the
    namespace between [0.003] and [0.036], at every root [Q] of the energy
    equation the square of [Q/area_pipe] lies between [0.4] and [0.6], and
    the friction solve there is run at a Reynolds number between [40000]
    and [60000] and returns a friction factor between [1/36] and
    [1/16]. *)
Theorem energy_equation_root_bounds {solver : RootFinder} (Q : R) (nb : notebook) :
  sound solver ->
  0.003 <= nb_rel_eps nb -> nb_rel_eps nb <= 0.036 ->
  energy_equation Q nb = Ok 0 ->
  0.4 < (Q / area_pipe) ^ 2 /\ (Q / area_pipe) ^ 2 < 0.6 /\
  exists re f : R,
    re = RHO * (Q / area_pipe) ^ 2 * d_pipe / MU /\
    40000 < re /\ re < 60000 /\
    friction_factor re (nb_rel_eps nb) nb = Ok f /\
    1 / 36 < f /\ f < 1 / 16.
Proof.
  intros Hsound H0 H1 Hr.
  destruct (energy_equation_root_facts Q nb Hsound Hr) as (Hs & Ev & Hf).
  destruct (inverse_sqrt_friction_range _ H0 H1) as [S4 S6].
  set (s := inverse_sqrt_friction (nb_rel_eps nb)) in *.
  split; [lra |]. split; [lra |].
  exists (RHO * (Q / area_pipe) ^ 2 * d_pipe / MU), (/ s ^ 2).
  rewrite reynolds_value, Ev.
  split; [reflexivity |]. split; [lra |]. split; [lra |].
  split; [replace (100000 * (s / 10)) with (10000 * s) by lra; exact Hf |].
  split.
  - replace (1 / 36) with (/ 36) by lra. apply Rinv_lt_contravar; nra.
  - replace (1 / 16) with (/ 16) by lra. apply Rinv_lt_contravar; nra.
Qed.

Lemma pipe_notebook_rel_eps_window :
  0.003 <= nb_rel_eps pipe_notebook /\ nb_rel_eps pipe_notebook <= 0.036.
Proof. rewrite pipe_notebook_rel_eps. lra. Qed.

Lemma energy_equation_root_bounds_witness :
  sound (try_root (/ inverse_sqrt_friction (nb_rel_eps pipe_notebook) ^ 2)) /\
  0.003 <= nb_rel_eps pipe_notebook /\ nb_rel_eps pipe_notebook <= 0.036 /\
  @energy_equation (try_root (/ inverse_sqrt_friction (nb_rel_eps pipe_notebook) ^ 2))
          (balanced_flow_rate (nb_rel_eps pipe_notebook)) pipe_notebook = Ok 0 /\
  0.4 < (balanced_flow_rate (nb_rel_eps pipe_notebook) / area_pipe) ^ 2 /\
  (balanced_flow_rate (nb_rel_eps pipe_notebook) / area_pipe) ^ 2 < 0.6.
Proof.
  destruct pipe_notebook_rel_eps_range as [H0 H1].
  destruct pipe_notebook_rel_eps_window as [W0 W1].
  destruct (energy_equation_run pipe_notebook H0 H1) as [_ Hr].
  split; [apply try_root_sound |]. split; [exact W0 |]. split; [exact W1 |].
  split; [exact Hr |].
  destruct (@energy_equation_root_bounds _ _ pipe_notebook (try_root_sound _) W0 W1 Hr)
    as (B0 & B1 & _).
  split; [exact B0 | exact B1].
Defined.

(** ** Two calls of the solve *)





(** The condition on the root finder is needed: with a root finder that
    has two answers to a call, so has the solve. *)
Remark friction_factor_outcome_follows_root_finder (nb : notebook) :
  friction_factor_outcome (either_answer 0 1) 5000 0.05 nb (Ok 0) /\
  friction_factor_outcome (either_answer 0 1) 5000 0.05 nb (Ok 1).
Proof.
  split; eapply solve_answers;
    try (apply complete_turbulence_ok; lra); unfold either_answer; tauto.
Qed.

(** ** The difference of the heads in binary64 *)


